(** * Bank statement -> financial statements: the computational core of app.py

    A shallow embedding of [app.py]: the keyword categorizer, the statement
    aggregates, the ratio table, the charts' series, the valuation proxies and
    the Streamlit script that strings them together.

    Modelling decisions.
    - A Python [str] is a Rocq [string] whose characters are read as the code
      points 0..255; [lower] is Python's [str.lower] on that range.
    - A Description cell is a text, an integer or a missing cell (pandas' NaN);
      [str] is Python's [str] on those.
    - The table is read column by column, by name ([read_csv]); the parsers of
      the cells are parameters.
    - The Streamlit calls are events appended to a trace; a Python exception
      stops the script and is the outcome of the run.  On a table without
      lines [df.apply] yields no text column and line 49 raises.
    - In the first part an amount is an exact rational ([Q]) and every line
      has a date: the figures are those pandas computes as long as no int64
      sum overflows and no float64 operation rounds.
    - Module [Machine] embeds lines 21-60, 78 and 81 again over the arithmetic
      of the Amount column's dtype: int64 with wrap-around, or float64 with
      numpy's pairwise summation and NaN; a date may be missing (NaT).  The
      statements that depend on the arithmetic are made there. *)

From Stdlib Require Import List String Ascii Bool NArith ZArith QArith Qabs.
From Stdlib Require Import DecimalString Permutation Sorted Lia.
From Stdlib Require Floats.
Import ListNotations.

Local Open Scope string_scope.
Local Open Scope Q_scope.

(** ** Python strings *)

Module PyStr.

(** [str.lower] on one code point below 256: A-Z, and the Latin-1 capitals
    U+00C0..U+00DE without the multiplication sign U+00D7, move up by 32. *)
Definition lower_char (c : ascii) : ascii :=
  let n := N_of_ascii c in
  if (((65 <=? n) && (n <=? 90)) ||
      ((192 <=? n) && (n <=? 222) && negb (n =? 215)))%N
  then ascii_of_N (n + 32)
  else c.

Fixpoint lower (s : string) : string :=
  match s with
  | EmptyString => EmptyString
  | String c r => String (lower_char c) (lower r)
  end.

(** [sub in s]: [sub] starts at some position of [s]. *)
Fixpoint contains (sub s : string) : bool :=
  prefix sub s
  || match s with
     | EmptyString => false
     | String _ r => contains sub r
     end.

(** The property [contains] decides. *)
Definition Substring (sub s : string) : Prop :=
  exists pre post, s = pre ++ sub ++ post.

End PyStr.

Import PyStr.

(** ** Cells of the uploaded table *)

(** A cell of the Description column as [pd.read_csv] delivers it. *)
Inductive cell : Type :=
| Text (s : string)
| Int (z : Z)
| NaN.

(** Python's [str(description)]. *)
Definition str (v : cell) : string :=
  match v with
  | Text s => s
  | Int z => NilZero.string_of_int (Z.to_int z)
  | NaN => "nan"
  end.

(** [a > b] on amounts. *)
Definition Qgtb (a b : Q) : bool := negb (Qle_bool a b).

(** ** The categorizer (app.py, lines 21-33) *)

Definition categorize (description : cell) (amount : Q) : string :=
  let desc := lower (str description) in
  if contains "shell" desc || contains "fuel" desc then "Fuel Expense"
  else if contains "salary" desc || contains "payroll" desc then "Payroll Expense"
  else if contains "rent" desc then "Rent Expense"
  else if existsb (fun k => contains k desc) ["tax"; "vat"] then "Tax"
  else if Qgtb amount 0 then "Sales Income"
  else "Other Expense".

(** The closed enumeration of category labels. *)
Definition categories : list string :=
  ["Fuel Expense"; "Payroll Expense"; "Rent Expense"; "Tax";
   "Sales Income"; "Other Expense"].

(** The amount-sign default of the last two rules. *)
Definition sign_default (amount : Q) : string :=
  if Qgtb amount 0 then "Sales Income" else "Other Expense".

(** ** The uploaded table *)

(** A calendar date, as [pd.to_datetime] parsed it. *)
Record date : Type := mkdate { year : Z; month : Z; day : Z }.

Definition date_eqb (a b : date) : bool :=
  ((year a =? year b) && (month a =? month b) && (day a =? day b))%Z.

Definition date_leb (a b : date) : bool :=
  ((year a <? year b)
   || ((year a =? year b)
       && ((month a <? month b)
           || ((month a =? month b) && (day a <=? day b)))))%Z.

(** The three columns the script reads, one record per line of the CSV. *)
Record Row : Type := mkRow {
  Date : date;
  Description : cell;
  Amount : Q
}.

(** [df = pd.read_csv(uploaded_file)]: the header, the required columns'
    cells (read only when the header has them) and the cells of every other
    column, line by line. *)
Record DataFrame : Type := mkDataFrame {
  columns : list string;
  rows : list Row;
  others : list (list string)
}.

(** A line of the table once line 41 has added the Category column. *)
Record Txn : Type := mkTxn {
  txn_row :> Row;
  Category : string
}.

Definition required_cols : list string := ["Date"; "Description"; "Amount"].

(** [required_cols.issubset(df.columns)] *)
Definition issubset (small big : list string) : bool :=
  forallb (fun c => existsb (String.eqb c) big) small.

(** [df.apply(lambda row: categorize(row["Description"], row["Amount"]), axis=1)] *)
Definition apply_categorize (rs : list Row) : list Txn :=
  map (fun row => mkTxn row (categorize (Description row) (Amount row))) rs.

(** ** The parsed CSV, column by column

    pandas keeps the table [pd.read_csv] returns as named columns, and the
    script reads the columns it needs by name: [row["Description"]],
    [row["Amount"]], [df["Date"]].  How pandas parses a cell is left open: the
    parsers are parameters. *)

Section ReadCsv.
Context {raw : Type}.
Variable to_datetime : raw -> date.
Variable to_description : raw -> cell.
Variable to_amount : raw -> Q.
Variable to_text : raw -> string.





End ReadCsv.

(** ** pandas' series operations *)

(** [Series.sum()]: left to right from 0. *)
Definition sum (l : list Q) : Q := fold_left Qplus l 0.

(** [df["Amount"]] *)
Definition amounts (df : list Txn) : list Q := map (fun t : Txn => Amount t) df.

(** [a < b] on amounts. *)
Definition Qltb (a b : Q) : bool := Qgtb b a.

Section GroupBy.
Context {K : Type} (eqb leb : K -> K -> bool).

(** The group keys come out sorted and without repeats. *)
Fixpoint insert_key (k : K) (ks : list K) : list K :=
  match ks with
  | [] => [k]
  | h :: t =>
      if eqb k h then ks
      else if leb k h then k :: ks
      else h :: insert_key k t
  end.

Definition group_keys (ks : list K) : list K :=
  fold_left (fun acc k => insert_key k acc) ks [].

(** [df.groupby(key)["Amount"].sum()] *)
Definition groupby_sum (key : Txn -> K) (df : list Txn) : list (K * Q) :=
  map (fun k => (k, sum (amounts (filter (fun t => eqb (key t) k) df))))
      (group_keys (map key df)).
End GroupBy.

(** [Series.abs()] *)
Definition series_abs {K : Type} (s : list (K * Q)) : list (K * Q) :=
  map (fun kv => (fst kv, Qabs (snd kv))) s.

(** [Series.empty] *)
Definition empty {A : Type} (s : list A) : bool :=
  match s with [] => true | _ :: _ => false end.

(** [Series.cumsum()] *)
Fixpoint cumsum_from {K : Type} (acc : Q) (s : list (K * Q)) : list (K * Q) :=
  match s with
  | [] => []
  | (k, v) :: r => (k, acc + v) :: cumsum_from (acc + v) r
  end.

Definition cumsum {K : Type} (s : list (K * Q)) : list (K * Q) :=
  match s with
  | [] => []
  | (k, v) :: r => (k, v) :: cumsum_from v r
  end.

(** ** The statements (app.py, lines 48-60) *)

Definition is_sales (t : Txn) : bool := Category t =? "Sales Income".

(** [df["Category"].str.contains("Expense")] *)
Definition is_expense (t : Txn) : bool := contains "Expense" (Category t).

Definition income (df : list Txn) : Q := sum (amounts (filter is_sales df)).

Definition expenses (df : list Txn) : Q := sum (amounts (filter is_expense df)).

Definition net_profit (df : list Txn) : Q := income df + expenses df.

Definition total_assets (df : list Txn) : Q := sum (amounts df).

Definition total_liabilities (df : list Txn) : Q :=
  Qabs (sum (amounts (filter is_expense df))).

Definition equity (df : list Txn) : Q := total_assets df - total_liabilities df.

(** ** The charts' series (lines 78 and 81) *)

Definition expense_df (df : list Txn) : list (string * Q) :=
  series_abs
    (groupby_sum String.eqb String.leb Category
       (filter (fun t : Txn => Qltb (Amount t) 0) df)).

Definition cash_flow (df : list Txn) : list (date * Q) :=
  cumsum (groupby_sum date_eqb date_leb (fun t : Txn => Date t) df).

(** ** The valuation proxies (lines 86-88) *)

Definition dcf_ev (net_profit : Q) : Q := net_profit * 5.
Definition ev_ebitda (net_profit : Q) : Q := net_profit * 6.
Definition ev_revenue (income : Q) : Q := income * 1.5.

(** ** The script: Streamlit calls and exceptions *)

Inductive heading : Type :=
| Transactions | IncomeStatement | BalanceSheet | Ratios | Charts
| EnterpriseValuation.

(** A cell of the PDF: the title, or a label with a figure, which the PDF
    prints with two decimals. *)
Inductive pdf_cell : Type :=
| pdf_title (text : string)
| pdf_figure (label : string) (value : Q).

(** What the page receives, in order. *)
Inductive event : Type :=
| st_set_page_config
| st_title
| st_markdown
| st_file_uploader
| st_error (msg : string)
| st_subheader (h : heading)
| st_dataframe (df : list Txn) (other_columns : list (list string))
| st_write (label : string) (value : Q)
| st_table (t : list (string * Q))
| st_bar_chart (series : list (string * Q))
| st_line_chart (series : list (date * Q))
| st_button
| st_download_pdf (cells : list pdf_cell)
| st_download_excel (transactions : list Txn)
    (other_columns : list (list string)) (statements : list (string * Q)).

Inductive exception : Type := ZeroDivisionError | AttributeError.

Inductive outcome (A : Type) : Type :=
| Done (a : A)
| Raised (e : exception).
Arguments Done {A} a.
Arguments Raised {A} e.

(** A piece of script: the events it sent, then how it ended. *)
Definition script (A : Type) : Type := (list event * outcome A)%type.

Definition ret {A : Type} (a : A) : script A := ([], Done a).

Definition raise {A : Type} (e : exception) : script A := ([], Raised e).

Definition emit (e : event) : script unit := ([e], Done tt).

Definition bind {A B : Type} (m : script A) (f : A -> script B) : script B :=
  match m with
  | (es, Done a) => let (es', r) := f a in ((es ++ es')%list, r)
  | (es, Raised e) => (es, Raised e)
  end.

Notation "x <- m ;; k" := (bind m (fun x => k))
  (at level 61, m at next level, right associativity).
Notation "m ;; k" := (bind m (fun _ => k))
  (at level 61, right associativity).

Definition trace {A : Type} (m : script A) : list event := fst m.
Definition result {A : Type} (m : script A) : outcome A := snd m.

(** Python's [a / b]. *)
Definition truediv (a b : Q) : script Q :=
  if Qeq_bool b 0 then raise ZeroDivisionError else ret (a / b).

(** The ratio dictionary (lines 69-73), in insertion order. *)
Definition ratios (net_profit income total_liabilities equity total_assets : Q)
  : script (list (string * Q)) :=
  margin <- (if negb (Qeq_bool income 0)
             then (x <- truediv net_profit income ;; ret (x * 100))
             else ret 0) ;;
  debt <- (if negb (Qeq_bool equity 0)
           then truediv total_liabilities equity
           else ret 0) ;;
  share <- (if negb (Qeq_bool total_assets 0)
            then (x <- truediv equity total_assets ;; ret (x * 100))
            else ret 0) ;;
  ret [("Net Profit Margin (%)", margin);
       ("Debt-to-Equity", debt);
       ("Equity Ratio (%)", share)].

(** The cells [create_pdf] prints (lines 98-108): the title, then nine
    figures. *)
Definition pdf_lines (income expenses net_profit total_assets total_liabilities
                      equity dcf_ev ev_ebitda ev_revenue : Q) : list pdf_cell :=
  [pdf_title "Financial Report";
   pdf_figure "Revenue:" income; pdf_figure "Expenses:" expenses;
   pdf_figure "Net Profit:" net_profit; pdf_figure "Assets:" total_assets;
   pdf_figure "Liabilities:" total_liabilities; pdf_figure "Equity:" equity;
   pdf_figure "DCF EV:" dcf_ev; pdf_figure "EV/EBITDA EV:" ev_ebitda;
   pdf_figure "Revenue Multiple EV:" ev_revenue].

(** The Statements sheet of the workbook. *)
Definition statements (income expenses net_profit total_assets total_liabilities
                       equity : Q) : list (string * Q) :=
  [("Revenue", income); ("Expenses", expenses); ("Net Profit", net_profit);
   ("Assets", total_assets); ("Liabilities", total_liabilities);
   ("Equity", equity)].

Definition column_error : string :=
  "CSV must have columns: Date, Description, Amount".

(** [df["Category"].str]: on a table without lines [df.apply] gives no text
    column, and the [.str] accessor raises. *)
Definition str_accessor (df : list Txn) : script unit :=
  if empty df then raise AttributeError else ret tt.

(** The [else] branch of line 40, down to the end of the file.
    [pdf_clicked] is what [st.button] returns. *)
Definition process (df0 : DataFrame) (pdf_clicked : bool) : script unit :=
  let df := apply_categorize (rows df0) in
  emit (st_subheader Transactions) ;;
  emit (st_dataframe df (others df0)) ;;
  let income := income df in
  str_accessor df ;;
  let expenses := expenses df in
  let net_profit := income + expenses in
  emit (st_subheader IncomeStatement) ;;
  emit (st_write "**Revenue:**" income) ;;
  emit (st_write "**Expenses:**" expenses) ;;
  emit (st_write "**Net Profit:**" net_profit) ;;
  let total_assets := total_assets df in
  let total_liabilities := total_liabilities df in
  let equity := total_assets - total_liabilities in
  emit (st_subheader BalanceSheet) ;;
  emit (st_write "**Assets:**" total_assets) ;;
  emit (st_write "**Liabilities:**" total_liabilities) ;;
  emit (st_write "**Equity:**" equity) ;;
  emit (st_subheader Ratios) ;;
  ratios <- ratios net_profit income total_liabilities equity total_assets ;;
  emit (st_table ratios) ;;
  emit (st_subheader Charts) ;;
  let expense_df := expense_df df in
  (if negb (empty expense_df) then emit (st_bar_chart expense_df) else ret tt) ;;
  let cash_flow := cash_flow df in
  emit (st_line_chart cash_flow) ;;
  emit (st_subheader EnterpriseValuation) ;;
  let dcf_ev := dcf_ev net_profit in
  let ev_ebitda := ev_ebitda net_profit in
  let ev_revenue := ev_revenue income in
  emit (st_write "DCF Proxy EV:" dcf_ev) ;;
  emit (st_write "EV/EBITDA Proxy:" ev_ebitda) ;;
  emit (st_write "Revenue Multiple EV:" ev_revenue) ;;
  emit st_button ;;
  (if pdf_clicked
   then emit (st_download_pdf
                (pdf_lines income expenses net_profit total_assets
                   total_liabilities equity dcf_ev ev_ebitda ev_revenue))
   else ret tt) ;;
  emit (st_download_excel df (others df0)
          (statements income expenses net_profit total_assets
             total_liabilities equity)).

(** The whole script, one run per upload. *)
Definition app_py (uploaded_file : option DataFrame) (pdf_clicked : bool)
  : script unit :=
  emit st_set_page_config ;;
  emit st_title ;;
  emit st_markdown ;;
  emit st_file_uploader ;;
  match uploaded_file with
  | None => ret tt
  | Some df =>
      if negb (issubset required_cols (columns df))
      then emit (st_error column_error)
      else process df pdf_clicked
  end.

(** ** The specification's words

    Definitions that follow the specification, to compare the code with. *)

(** The same order said with a table: the first rule with a keyword in the
    text gives the label. *)
Definition keyword_rules : list (list string * string) :=
  [(["shell"; "fuel"], "Fuel Expense");
   (["salary"; "payroll"], "Payroll Expense");
   (["rent"], "Rent Expense");
   (["tax"; "vat"], "Tax")].

Fixpoint first_match (rules : list (list string * string)) (desc default : string)
  : string :=
  match rules with
  | [] => default
  | (keywords, label) :: rest =>
      if existsb (fun k => contains k desc) keywords then label
      else first_match rest desc default
  end.

(** The sum of the amounts of the transactions that satisfy [P]. *)
Fixpoint sum_where (P : Txn -> Prop) (dec : forall t, {P t} + {~ P t})
  (df : list Txn) : Q :=
  match df with
  | [] => 0
  | t :: rest =>
      if dec t then Amount t + sum_where P dec rest else sum_where P dec rest
  end.

(** The transactions the Tax rule labelled. *)
Definition is_tax (t : Txn) : bool := Category t =? "Tax".

(** The keywords of the three rules whose label says "Expense". *)
Definition expense_keywords : list string :=
  ["shell"; "fuel"; "salary"; "payroll"; "rent"].

(** The three ratios, each "defined as 0" when its denominator is 0. *)
Definition ratio_table (net_profit income total_liabilities equity total_assets : Q)
  : list (string * Q) :=
  [("Net Profit Margin (%)",
    if Qeq_bool income 0 then 0 else net_profit / income * 100);
   ("Debt-to-Equity",
    if Qeq_bool equity 0 then 0 else total_liabilities / equity);
   ("Equity Ratio (%)",
    if Qeq_bool total_assets 0 then 0 else equity / total_assets * 100)].

(** What the page shows before it looks at the upload. *)
Definition preamble : list event :=
  [st_set_page_config; st_title; st_markdown; st_file_uploader].

(** The page of a run that went through: every figure in its place. *)
Definition report_events (df0 : DataFrame) (pdf_clicked : bool) : list event :=
  let df := apply_categorize (rows df0) in
  ([st_subheader Transactions;
    st_dataframe df (others df0);
    st_subheader IncomeStatement;
    st_write "**Revenue:**" (income df);
    st_write "**Expenses:**" (expenses df);
    st_write "**Net Profit:**" (net_profit df);
    st_subheader BalanceSheet;
    st_write "**Assets:**" (total_assets df);
    st_write "**Liabilities:**" (total_liabilities df);
    st_write "**Equity:**" (equity df);
    st_subheader Ratios;
    st_table (ratio_table (net_profit df) (income df) (total_liabilities df)
                (equity df) (total_assets df));
    st_subheader Charts]
   ++ (if empty (expense_df df) then [] else [st_bar_chart (expense_df df)])
   ++ [st_line_chart (cash_flow df);
       st_subheader EnterpriseValuation;
       st_write "DCF Proxy EV:" (dcf_ev (net_profit df));
       st_write "EV/EBITDA Proxy:" (ev_ebitda (net_profit df));
       st_write "Revenue Multiple EV:" (ev_revenue (income df));
       st_button]
   ++ (if pdf_clicked
       then [st_download_pdf
               (pdf_lines (income df) (expenses df) (net_profit df)
                  (total_assets df) (total_liabilities df) (equity df)
                  (dcf_ev (net_profit df)) (ev_ebitda (net_profit df))
                  (ev_revenue (income df)))]
       else [])
   ++ [st_download_excel df (others df0)
         (statements (income df) (expenses df) (net_profit df)
            (total_assets df) (total_liabilities df) (equity df))])%list.



(** The three required columns are in the header. *)
Definition required_present (df : DataFrame) : Prop :=
  In "Date" (columns df) /\ In "Description" (columns df) /\ In "Amount" (columns df).

(** ** Inputs of the specification's scenarios *)

(** The three-line statement of the specification's scenario. *)
Definition scenario_rows : list Row :=
  [mkRow (mkdate 2024 1 1) (Text "Shell Fuel") (-50);
   mkRow (mkdate 2024 1 2) (Text "Salary") 2000;
   mkRow (mkdate 2024 1 3) (Text "Office Rent") (-300)].

Definition scenario : DataFrame :=
  mkDataFrame ["Date"; "Description"; "Amount"] scenario_rows [[]; []; []].

(** A statement with a single deposit: no line has a negative amount. *)
Definition deposit_only : DataFrame :=
  mkDataFrame ["Date"; "Description"; "Amount"]
    [mkRow (mkdate 2024 1 5) (Text "Invoice 17") 100] [[]].

(** An upload with the three columns and no line. *)
Definition header_only : DataFrame :=
  mkDataFrame ["Date"; "Description"; "Amount"] [] [].

(** An upload without the Amount column. *)
Definition no_amount_column : DataFrame :=
  mkDataFrame ["Date"; "Description"; "Memo"] [] [].





(** ** Notions used to state further properties of the code *)

(** The seven keywords of the four keyword rules. *)
Definition keywords : list string :=
  ["shell"; "fuel"; "salary"; "payroll"; "rent"; "tax"; "vat"].

(** Some keyword occurs in the lower-cased text of the description. *)
Definition has_keyword (description : cell) : Prop :=
  exists k, In k keywords /\ Substring k (lower (str description)).

(** An ASCII capital letter. *)
Definition is_upper (c : ascii) : bool :=
  let n := N_of_ascii c in ((65 <=? n) && (n <=? 90))%N.

(** Two characters that differ at most by the case of an ASCII letter. *)
Definition same_letter (c c' : ascii) : Prop :=
  c = c'
  \/ (is_upper c = true /\ N_of_ascii c' = (N_of_ascii c + 32)%N)
  \/ (is_upper c' = true /\ N_of_ascii c = (N_of_ascii c' + 32)%N).

(** Two texts that differ at most by the case of their ASCII letters. *)
Fixpoint eq_ignoring_case (s s' : string) : Prop :=
  match s, s' with
  | EmptyString, EmptyString => True
  | String c r, String c' r' => same_letter c c' /\ eq_ignoring_case r r'
  | _, _ => False
  end.

(** A decimal digit or the minus sign. *)
Definition is_digit_or_minus (c : ascii) : bool :=
  let n := N_of_ascii c in (((48 <=? n) && (n <=? 57)) || (n =? 45))%N.

Fixpoint all_chars (p : ascii -> bool) (s : string) : bool :=
  match s with
  | EmptyString => true
  | String c r => p c && all_chars p r
  end.

(** [a] comes strictly before [b] in the order [leb] of the group keys. *)
Definition before {K : Type} (leb : K -> K -> bool) (a b : K) : Prop :=
  leb a b = true /\ a <> b.

(** The sum of the amounts of the group of key [k]. *)
Definition group_total {K : Type} (eqb : K -> K -> bool) (key : Txn -> K)
  (df : list Txn) (k : K) : Q :=
  sum (amounts (filter (fun t => eqb (key t) k) df)).

(** The transaction is dated [d] or earlier. *)
Definition on_or_before (d : date) (t : Txn) : bool := date_leb (Date t) d.

(** The transaction has a negative amount. *)
Definition is_negative (t : Txn) : bool := Qltb (Amount t) 0.

(** The labels a negative amount can get. *)
Definition chart_labels : list string :=
  ["Fuel Expense"; "Payroll Expense"; "Rent Expense"; "Tax"; "Other Expense"].

(** A statement with a sale and a fuel purchase. *)
Definition sale_and_fuel : list Row :=
  [mkRow (mkdate 2024 2 1) (Text "Invoice 18") 1000;
   mkRow (mkdate 2024 2 3) (Text "Shell station") (-50)].

(** ** The machine arithmetic of the Amount column

    [pd.read_csv] gives the Amount column the dtype int64 when every cell is
    an integer and float64 otherwise (a decimal point, an empty cell).  Lines
    21-60 are embedded here over that arithmetic: the comparison [amount > 0],
    [Series.sum()], [+], [-] and [abs] are those of the column's dtype.  The
    series of the two charts follow for an int64 column. *)

Module Machine.
Import PrimFloat.
#[local] Set Warnings "-inexact-float".

(** What pandas and numpy compute on the values of a column of one dtype. *)
Record dtype : Type := mkdtype {
  num : Type;
  gt_zero : num -> bool;
  Series_sum : list num -> num;
  plus : num -> num -> num;
  minus : num -> num -> num;
  absolute : num -> num
}.

Section Statements.
Variable D : dtype.

(** A line of the table: [Date] is [None] where [pd.to_datetime] gave NaT. *)
Record Row : Type := mkRow {
  Date : option date;
  Description : cell;
  Amount : num D
}.

Record Txn : Type := mkTxn {
  txn_row :> Row;
  Category : string
}.

(** Lines 21-33. *)
Definition categorize (description : cell) (amount : num D) : string :=
  let desc := lower (str description) in
  if contains "shell" desc || contains "fuel" desc then "Fuel Expense"
  else if contains "salary" desc || contains "payroll" desc then "Payroll Expense"
  else if contains "rent" desc then "Rent Expense"
  else if existsb (fun k => contains k desc) ["tax"; "vat"] then "Tax"
  else if gt_zero D amount then "Sales Income"
  else "Other Expense".

(** Line 41. *)
Definition apply_categorize (rs : list Row) : list Txn :=
  map (fun row => mkTxn row (categorize (Description row) (Amount row))) rs.

Definition amounts (df : list Txn) : list (num D) :=
  map (fun t : Txn => Amount t) df.

Definition is_sales (t : Txn) : bool := (Category t =? "Sales Income")%string.

Definition is_expense (t : Txn) : bool := contains "Expense" (Category t).

Definition is_tax (t : Txn) : bool := (Category t =? "Tax")%string.

(** Lines 48-60. *)
Definition income (df : list Txn) : num D :=
  Series_sum D (amounts (filter is_sales df)).

Definition expenses (df : list Txn) : num D :=
  Series_sum D (amounts (filter is_expense df)).

Definition net_profit (df : list Txn) : num D :=
  plus D (income df) (expenses df).

Definition total_assets (df : list Txn) : num D := Series_sum D (amounts df).

Definition total_liabilities (df : list Txn) : num D :=
  absolute D (Series_sum D (amounts (filter is_expense df))).

Definition equity (df : list Txn) : num D :=
  minus D (total_assets df) (total_liabilities df).


End Statements.

Arguments mkRow {D} Date Description Amount.
Arguments Date {D} r.
Arguments Description {D} r.
Arguments Amount {D} r.
Arguments mkTxn {D} txn_row Category.
Arguments txn_row {D} t.
Arguments Category {D} t.
Arguments is_sales {D} t.
Arguments is_expense {D} t.
Arguments is_tax {D} t.

(** *** int64 *)

(** The value an int64 holds after an operation whose exact result is [z]. *)
Definition wrap (z : Z) : Z := ((z + 2 ^ 63) mod 2 ^ 64 - 2 ^ 63)%Z.

(** The values an int64 can hold. *)
Definition in_int64 (z : Z) : Prop := (- 2 ^ 63 <= z < 2 ^ 63)%Z.

Definition int64 : dtype := {|
  num := Z;
  gt_zero := fun z => (0 <? z)%Z;
  Series_sum := fun l => fold_left (fun acc z => wrap (acc + z)) l 0%Z;
  plus := fun a b => wrap (a + b);
  minus := fun a b => wrap (a - b);
  absolute := fun a => wrap (Z.abs a)
|}.

(** The exact sum of a list of integers. *)
Definition Zsum (l : list Z) : Z := fold_right Z.add 0%Z l.

(** *** The charts' series on an int64 column (lines 78 and 81) *)

(** The exact total of the amounts filed under the key [k]. *)
Definition group_total {K : Type} (same : K -> K -> bool) (keyed : list (K * Z))
  (k : K) : Z :=
  Zsum (map snd (filter (fun e => same (fst e) k) keyed)).

(** [groupby(key)["Amount"].sum()]: the keys sorted, each with the int64 sum
    of its amounts. *)
Definition groupby_sum {K : Type} (same before_or_same : K -> K -> bool)
  (keyed : list (K * Z)) : list (K * Z) :=
  map (fun k => (k, Series_sum int64
                      (map snd (filter (fun e => same (fst e) k) keyed))))
      (group_keys same before_or_same (map fst keyed)).

Definition by_category (df : list (Txn int64)) : list (string * Z) :=
  map (fun t : Txn int64 => (Category t, Amount (txn_row t))) df.

(** [groupby("Date")] leaves out the lines whose date is NaT. *)
Definition by_date (df : list (Txn int64)) : list (date * Z) :=
  flat_map (fun t : Txn int64 =>
              match Date (txn_row t) with
              | Some d => [(d, Amount (txn_row t))]
              | None => []
              end) df.

Definition is_negative (t : Txn int64) : bool := (Amount (txn_row t) <? 0)%Z.

(** Line 78. *)
Definition expense_df (df : list (Txn int64)) : list (string * Z) :=
  map (fun kv => (fst kv, absolute int64 (snd kv)))
      (groupby_sum String.eqb String.leb (by_category (filter is_negative df))).

(** [Series.cumsum()] *)
Fixpoint cumsum_from {K : Type} (acc : Z) (s : list (K * Z)) : list (K * Z) :=
  match s with
  | [] => []
  | (k, v) :: r => (k, wrap (acc + v)) :: cumsum_from (wrap (acc + v)) r
  end.

Definition cumsum {K : Type} (s : list (K * Z)) : list (K * Z) :=
  match s with
  | [] => []
  | (k, v) :: r => (k, v) :: cumsum_from v r
  end.

(** Line 81. *)
Definition cash_flow (df : list (Txn int64)) : list (date * Z) :=
  cumsum (groupby_sum date_eqb date_leb (by_date df)).

(** *** float64 *)

(** numpy's pairwise summation: a plain loop below 8 numbers, eight partial
    sums up to 128 numbers, two halves above. *)
Fixpoint add_blocks (r rest : list float) (blocks : nat)
  : list float * list float :=
  match blocks with
  | O => (r, rest)
  | S n =>
      add_blocks (map (fun ra => add (fst ra) (snd ra)) (combine r (firstn 8 rest)))
        (skipn 8 rest) n
  end.

Definition unrolled_sum (l : list float) : float :=
  let n := List.length l in
  let '(r, rest) := add_blocks (firstn 8 l) (skipn 8 l) (n / 8 - 1) in
  let r_ i := nth i r 0%float in
  fold_left add rest
    (add (add (add (r_ 0%nat) (r_ 1%nat)) (add (r_ 2%nat) (r_ 3%nat)))
         (add (add (r_ 4%nat) (r_ 5%nat)) (add (r_ 6%nat) (r_ 7%nat)))).

Fixpoint pairwise_sum (fuel : nat) (l : list float) : float :=
  let n := List.length l in
  if (n <? 8)%nat then fold_left add l 0%float
  else if (n <=? 128)%nat then unrolled_sum l
  else
    match fuel with
    | O => unrolled_sum l
    | S fuel' =>
        let n2 := (n / 2 - (n / 2) mod 8)%nat in
        add (pairwise_sum fuel' (firstn n2 l)) (pairwise_sum fuel' (skipn n2 l))
    end.

(** [Series.sum()] on float64: NaN cells count as 0 ([skipna]), then numpy
    adds the values to the initial 0. *)
Definition nansum (l : list float) : float :=
  let values := map (fun x => if is_nan x then 0%float else x) l in
  add 0%float (pairwise_sum (List.length values) values).

Definition float64 : dtype := {|
  num := float;
  gt_zero := fun x => ltb 0%float x;
  Series_sum := nansum;
  plus := add;
  minus := sub;
  absolute := abs
|}.

(** *** Tables used below *)



(** The scenario of the specification, its amounts being integers. *)
Definition scenario_rows : list (Row int64) :=
  [mkRow (D:=int64) (Some (mkdate 2024 1 1)) (Text "Shell Fuel") (-50)%Z;
   mkRow (D:=int64) (Some (mkdate 2024 1 2)) (Text "Salary") 2000%Z;
   mkRow (D:=int64) (Some (mkdate 2024 1 3)) (Text "Office Rent") (-300)%Z].

(** A sale and a fuel purchase, in whole units. *)
Definition sale_and_fuel : list (Row int64) :=
  [mkRow (D:=int64) (Some (mkdate 2024 2 1)) (Text "Invoice 18") 1000%Z;
   mkRow (D:=int64) (Some (mkdate 2024 2 3)) (Text "Shell station") (-50)%Z].


(** A rent line with a positive amount. *)
Definition rent_refund : Row int64 :=
  mkRow (D:=int64) (Some (mkdate 2024 1 3)) (Text "Office Rent") 300%Z.

(** Three lines with decimal amounts and no keyword. *)
Definition decimal_rows : list (Row float64) :=
  [mkRow (D:=float64) (Some (mkdate 2024 4 1)) (Text "Invoice 41") 0.1%float;
   mkRow (D:=float64) (Some (mkdate 2024 4 2)) (Text "Bank charges") (-0.3)%float;
   mkRow (D:=float64) (Some (mkdate 2024 4 3)) (Text "Invoice 42") 0.2%float].

(** The same three lines, the two sales first. *)
Definition decimal_rows_sales_first : list (Row float64) :=
  [mkRow (D:=float64) (Some (mkdate 2024 4 1)) (Text "Invoice 41") 0.1%float;
   mkRow (D:=float64) (Some (mkdate 2024 4 3)) (Text "Invoice 42") 0.2%float;
   mkRow (D:=float64) (Some (mkdate 2024 4 2)) (Text "Bank charges") (-0.3)%float].

(** Equality of float64 numbers, [==] in Python. *)
Definition float_eqb (x y : float) : bool := eqb x y.

End Machine.

(** ** The code on small inputs *)

Example lower_mixed_case : lower "Shell FUEL 95" = "shell fuel 95".
Proof. reflexivity. Qed.

Example contains_inside : contains "rent" "office rent q1" = true.
Proof. reflexivity. Qed.

Example contains_empty : contains "" "abc" = true.
Proof. reflexivity. Qed.

Example contains_absent : contains "vat" "invoice" = false.
Proof. reflexivity. Qed.

Example str_of_integer : str (Int (-42)) = "-42".
Proof. reflexivity. Qed.

Example categorize_upper_case : categorize (Text "SHELL Station 12") (-40) = "Fuel Expense".
Proof. reflexivity. Qed.

Example categorize_fuel_before_rent :
  categorize (Text "fuel for rented van, tax incl.") (-80) = "Fuel Expense".
Proof. reflexivity. Qed.

Example categorize_vat : categorize (Text "VAT Q3") (-210) = "Tax".
Proof. reflexivity. Qed.

Example categorize_deposit : categorize (Text "Invoice 17") 100 = "Sales Income".
Proof. reflexivity. Qed.

Example categorize_zero : categorize (Text "Adjustment") 0 = "Other Expense".
Proof. reflexivity. Qed.

Example categorize_keyword_inside_word :
  categorize (Text "Parent company transfer") 500 = "Rent Expense".
Proof. reflexivity. Qed.

Example scenario_expense_series :
  expense_df (apply_categorize scenario_rows)
  = [("Fuel Expense", 50); ("Rent Expense", 300)].
Proof. reflexivity. Qed.

Example scenario_cash_flow :
  cash_flow (apply_categorize scenario_rows)
  = [(mkdate 2024 1 1, -50); (mkdate 2024 1 2, 1950); (mkdate 2024 1 3, 1650)].
Proof. reflexivity. Qed.

Example group_keys_sorted :
  group_keys String.eqb String.leb ["Tax"; "Fuel Expense"; "Tax"; "Rent Expense"]
  = ["Fuel Expense"; "Rent Expense"; "Tax"].
Proof. reflexivity. Qed.

Example missing_column_page :
  app_py (Some no_amount_column) false
  = ([st_set_page_config; st_title; st_markdown; st_file_uploader;
      st_error "CSV must have columns: Date, Description, Amount"], Done tt).
Proof. reflexivity. Qed.

Example no_upload_page :
  app_py None false
  = ([st_set_page_config; st_title; st_markdown; st_file_uploader], Done tt).
Proof. reflexivity. Qed.

(** ** Facts about strings *)

Lemma prefix_app (sub s : string) :
  prefix sub s = true <-> exists post, s = sub ++ post.
Proof.
  revert s; induction sub as [|c sub IH]; intros s; simpl.
  - split; [intros _; exists s; reflexivity | destruct s; reflexivity].
  - destruct s as [|d s]; simpl.
    + split; [discriminate | intros [post H]; discriminate].
    + destruct (Ascii.ascii_dec c d) as [->|Hne].
      * rewrite IH. split; intros [post H]; exists post.
        -- now rewrite H.
        -- now inversion H.
      * split; [discriminate | intros [post H]; congruence].
Qed.

Lemma contains_Substring (sub s : string) :
  contains sub s = true <-> Substring sub s.
Proof.
  unfold Substring. induction s as [|c s IH].
  - cbn [contains]. rewrite orb_false_r, prefix_app. split.
    + intros [post H]. exists "", post. exact H.
    + intros [pre [post H]]. destruct pre; simpl in H.
      * now exists post.
      * discriminate.
  - cbn [contains]. rewrite orb_true_iff, prefix_app, IH. split.
    + intros [[post H] | [pre [post H]]].
      * exists "", post. exact H.
      * exists (String c pre), post. simpl. now rewrite H.
    + intros [pre [post H]]. destruct pre as [|d pre]; simpl in H.
      * left. now exists post.
      * right. inversion H. now exists pre, post.
Qed.

Lemma Qgtb_lt (a b : Q) : Qgtb a b = true <-> b < a.
Proof.
  unfold Qgtb. rewrite negb_true_iff, <- not_true_iff_false, Qle_bool_iff.
  split; [apply Qnot_le_lt | apply Qlt_not_le].
Qed.

Lemma Qgtb_morph (a a' b : Q) : a == a' -> Qgtb a b = Qgtb a' b.
Proof. intros H. unfold Qgtb. now rewrite H. Qed.

Lemma contains_not_Substring (sub s : string) :
  contains sub s = false <-> ~ Substring sub s.
Proof. rewrite <- contains_Substring. symmetry. apply not_true_iff_false. Qed.

Lemma contains_either (a b s : string) :
  contains a s || contains b s = true <-> Substring a s \/ Substring b s.
Proof. now rewrite orb_true_iff, !contains_Substring. Qed.

Lemma contains_neither (a b s : string) :
  contains a s || contains b s = false <-> ~ (Substring a s \/ Substring b s).
Proof. rewrite <- contains_either. symmetry. apply not_true_iff_false. Qed.

(** Turn every keyword test of the context into its [Substring] reading. *)
Ltac reflect_contains :=
  repeat match goal with
    | H : contains _ _ = true |- _ => apply contains_Substring in H
    | H : contains _ _ = false |- _ => apply contains_not_Substring in H
    | H : contains _ _ || contains _ _ = true |- _ => apply contains_either in H
    | H : contains _ _ || contains _ _ = false |- _ => apply contains_neither in H
    end.

(** ** The categorizer *)

(** C1.  The rules of [categorize] apply in their written order and the first
    that matches wins: "shell"/"fuel" give Fuel Expense; otherwise
    "salary"/"payroll" give Payroll Expense; otherwise "rent" gives Rent
    Expense; otherwise "tax"/"vat" give Tax; otherwise a positive amount gives
    Sales Income and any other amount Other Expense.  The keywords are looked
    up in the lower-cased text of the description.  So a description with both
    "rent" and "tax" that no earlier rule takes is a Rent Expense, and no
    description with both is ever a Tax. *)
Theorem categorize_rule_order (description : cell) (amount : Q) :
  let has k := Substring k (lower (str description)) in
  let fuel := has "shell" \/ has "fuel" in
  let payroll := has "salary" \/ has "payroll" in
  let tax := has "tax" \/ has "vat" in
  (fuel -> categorize description amount = "Fuel Expense") /\
  (~ fuel -> payroll -> categorize description amount = "Payroll Expense") /\
  (~ fuel -> ~ payroll -> has "rent" ->
   categorize description amount = "Rent Expense") /\
  (~ fuel -> ~ payroll -> ~ has "rent" -> tax ->
   categorize description amount = "Tax") /\
  (~ fuel -> ~ payroll -> ~ has "rent" -> ~ tax -> 0 < amount ->
   categorize description amount = "Sales Income") /\
  (~ fuel -> ~ payroll -> ~ has "rent" -> ~ tax -> ~ 0 < amount ->
   categorize description amount = "Other Expense") /\
  (has "rent" -> has "tax" -> ~ fuel -> ~ payroll ->
   categorize description amount = "Rent Expense") /\
  (has "rent" -> has "tax" -> categorize description amount <> "Tax").
Proof.
  cbv zeta. unfold categorize. cbn [existsb]. rewrite orb_false_r.
  set (desc := lower (str description)).
  destruct (contains "shell" desc || contains "fuel" desc) eqn:Hfuel;
  destruct (contains "salary" desc || contains "payroll" desc) eqn:Hpayroll;
  destruct (contains "rent" desc) eqn:Hrent;
  destruct (contains "tax" desc || contains "vat" desc) eqn:Htax;
  destruct (Qgtb amount 0) eqn:Hpos;
  reflect_contains;
  (apply Qgtb_lt in Hpos
   || (apply not_true_iff_false in Hpos; rewrite Qgtb_lt in Hpos));
  repeat split; intros; try reflexivity; try discriminate; tauto.
Qed.

Lemma categorize_rule_order_witness :
  Substring "rent" (lower (str (Text "Rent and Tax"))) /\
  Substring "tax" (lower (str (Text "Rent and Tax"))) /\
  categorize (Text "Rent and Tax") (-120) = "Rent Expense".
Proof.
  assert (Hr : Substring "rent" (lower (str (Text "Rent and Tax"))))
    by (apply contains_Substring; reflexivity).
  assert (Ht : Substring "tax" (lower (str (Text "Rent and Tax"))))
    by (apply contains_Substring; reflexivity).
  assert (Hf : ~ (Substring "shell" (lower (str (Text "Rent and Tax")))
                  \/ Substring "fuel" (lower (str (Text "Rent and Tax")))))
    by (apply contains_neither; reflexivity).
  assert (Hp : ~ (Substring "salary" (lower (str (Text "Rent and Tax")))
                  \/ Substring "payroll" (lower (str (Text "Rent and Tax")))))
    by (apply contains_neither; reflexivity).
  pose proof (categorize_rule_order (Text "Rent and Tax") (-120)) as H.
  cbv zeta in H. destruct H as [_ [_ [_ [_ [_ [_ [R _]]]]]]].
  exact (conj Hr (conj Ht (R Hr Ht Hf Hp))).
Defined.


Lemma categorize_first_match (description : cell) (amount : Q) :
  categorize description amount
  = first_match keyword_rules (lower (str description)) (sign_default amount).
Proof.
  unfold categorize, sign_default. cbn [first_match keyword_rules existsb].
  rewrite !orb_false_r. reflexivity.
Qed.

Lemma categorize_in_categories (description : cell) (amount : Q) :
  In (categorize description amount) categories.
Proof.
  unfold categorize, categories.
  repeat match goal with
    | |- context [if ?b then _ else _] => destruct b
    end; simpl; tauto.
Qed.

Lemma categorize_no_keyword (description : cell) (amount : Q) :
  (forall k, In k ["shell"; "fuel"; "salary"; "payroll"; "rent"; "tax"; "vat"] ->
             ~ Substring k (lower (str description))) ->
  categorize description amount = sign_default amount.
Proof.
  intros H. unfold categorize, sign_default. cbn [existsb].
  repeat match goal with
    | |- context [contains ?k ?s] =>
        let E := fresh in
        destruct (contains k s) eqn:E;
        [ apply contains_Substring in E; exfalso; revert E; apply H;
          simpl; tauto | ]
    end.
  reflexivity.
Qed.

(** C7.  [categorize] is total and deterministic: every description and
    amount gets exactly one label, of the six of the closed set; equal inputs
    (amounts equal as numbers) get the same label; and a description with no
    keyword, the empty text and a missing cell among them, gets the label the
    sign of the amount decides. *)
Theorem categorize_total_deterministic (description : cell) (amount : Q) :
  (exists! label, categorize description amount = label /\ In label categories) /\
  NoDup categories /\ List.length categories = 6%nat /\
  (forall description' amount',
      description' = description -> amount' == amount ->
      categorize description' amount' = categorize description amount) /\
  ((forall k, In k ["shell"; "fuel"; "salary"; "payroll"; "rent"; "tax"; "vat"] ->
              ~ Substring k (lower (str description))) ->
   (0 < amount -> categorize description amount = "Sales Income") /\
   (amount <= 0 -> categorize description amount = "Other Expense")) /\
  categorize (Text "") amount = (if Qgtb amount 0 then "Sales Income" else "Other Expense") /\
  categorize NaN amount = (if Qgtb amount 0 then "Sales Income" else "Other Expense").
Proof.
  split; [|split; [|split; [|split; [|split; [|split]]]]].
  - exists (categorize description amount). split.
    + split; [reflexivity | apply categorize_in_categories].
    + intros l [H _]. exact H.
  - unfold categories.
    repeat (constructor; [simpl; intuition discriminate|]).
    constructor.
  - reflexivity.
  - intros d' a' -> Ha. unfold categorize. now rewrite (Qgtb_morph _ _ _ Ha).
  - intros H. split.
    + intros Hpos. rewrite (categorize_no_keyword _ _ H). unfold sign_default.
      apply Qgtb_lt in Hpos. now rewrite Hpos.
    + intros Hle. rewrite (categorize_no_keyword _ _ H). unfold sign_default.
      destruct (Qgtb amount 0) eqn:E; [|reflexivity].
      apply Qgtb_lt in E. exfalso. exact (Qlt_not_le _ _ E Hle).
  - reflexivity.
  - reflexivity.
Qed.

Lemma categorize_total_deterministic_witness :
  (forall k, In k ["shell"; "fuel"; "salary"; "payroll"; "rent"; "tax"; "vat"] ->
             ~ Substring k (lower (str NaN))) /\
  0 < 75 /\
  categorize NaN 75 = "Sales Income".
Proof.
  assert (Hno : forall k,
             In k ["shell"; "fuel"; "salary"; "payroll"; "rent"; "tax"; "vat"] ->
             ~ Substring k (lower (str NaN))).
  { intros k Hk. cbn [In] in Hk.
    repeat destruct Hk as [Hk|Hk]; try contradiction; subst k;
      apply contains_not_Substring; reflexivity. }
  assert (Hpos : 0 < 75) by reflexivity.
  destruct (categorize_total_deterministic NaN 75) as [_ [_ [_ [_ [D _]]]]].
  exact (conj Hno (conj Hpos (proj1 (D Hno) Hpos))).
Defined.

(** ** Categories *)

Lemma apply_categorize_label (rs : list Row) (t : Txn) :
  In t (apply_categorize rs) -> In (Category t) categories.
Proof.
  unfold apply_categorize. rewrite in_map_iff. intros [r [<- _]].
  apply categorize_in_categories.
Qed.

Lemma categorize_rent (description : cell) (amount : Q) :
  let has k := Substring k (lower (str description)) in
  ~ (has "shell" \/ has "fuel") -> ~ (has "salary" \/ has "payroll") ->
  has "rent" ->
  categorize description amount = "Rent Expense".
Proof.
  cbv zeta. intros Hfuel Hpayroll Hrent. unfold categorize.
  apply contains_neither in Hfuel. apply contains_neither in Hpayroll.
  apply contains_Substring in Hrent.
  now rewrite Hfuel, Hpayroll, Hrent.
Qed.

Lemma expense_keyword_label (description : cell) (amount : Q) :
  (exists k, In k expense_keywords /\ Substring k (lower (str description))) ->
  In (categorize description amount)
     ["Fuel Expense"; "Payroll Expense"; "Rent Expense"].
Proof.
  intros [k [Hk Hsub]]. unfold categorize.
  set (desc := lower (str description)) in *.
  destruct (contains "shell" desc || contains "fuel" desc) eqn:Hfuel;
    [simpl; tauto|].
  destruct (contains "salary" desc || contains "payroll" desc) eqn:Hpayroll;
    [simpl; tauto|].
  destruct (contains "rent" desc) eqn:Hrent; [simpl; tauto|].
  reflect_contains. exfalso. unfold expense_keywords in Hk. simpl in Hk.
  repeat destruct Hk as [Hk|Hk]; try contradiction; subst k; tauto.
Qed.

(** ** The script *)

(** Find an event of a page written as a concatenation. *)
Ltac find_event :=
  first [ solve [cbn [In]; tauto]
        | apply in_or_app;
          first [ left; solve [cbn [In]; tauto] | right; find_event ] ].

Lemma ratios_ret (net_profit income total_liabilities equity total_assets : Q) :
  ratios net_profit income total_liabilities equity total_assets
  = ret (ratio_table net_profit income total_liabilities equity total_assets).
Proof.
  unfold ratios, ratio_table, truediv.
  destruct (Qeq_bool income 0), (Qeq_bool equity 0), (Qeq_bool total_assets 0);
    reflexivity.
Qed.

Lemma apply_categorize_nil (rs : list Row) :
  apply_categorize rs = [] <-> rs = [].
Proof.
  unfold apply_categorize. split; [apply map_eq_nil | now intros ->].
Qed.

Lemma process_eq (df0 : DataFrame) (pdf_clicked : bool) :
  rows df0 <> [] ->
  process df0 pdf_clicked = (report_events df0 pdf_clicked, Done tt).
Proof.
  intros Hne. unfold process, report_events, str_accessor. rewrite ratios_ret.
  destruct (apply_categorize (rows df0)) as [|t df] eqn:E.
  - apply apply_categorize_nil in E. contradiction.
  - cbn [empty].
    destruct (empty (expense_df (t :: df))), pdf_clicked; reflexivity.
Qed.

Lemma process_no_lines (df0 : DataFrame) (pdf_clicked : bool) :
  rows df0 = [] ->
  process df0 pdf_clicked
  = ([st_subheader Transactions; st_dataframe [] (others df0)],
     Raised AttributeError).
Proof. intros E. unfold process. rewrite E. reflexivity. Qed.

Lemma existsb_eqb_In (c : string) (cols : list string) :
  existsb (String.eqb c) cols = true <-> In c cols.
Proof.
  rewrite existsb_exists. split.
  - intros [x [Hin Heq]]. apply String.eqb_eq in Heq. now subst.
  - intros Hin. exists c. split; [exact Hin | apply String.eqb_refl].
Qed.

Lemma issubset_required (df : DataFrame) :
  issubset required_cols (columns df) = true <-> required_present df.
Proof.
  unfold issubset, required_cols, required_present. cbn [forallb].
  rewrite !andb_true_iff, !existsb_eqb_In. tauto.
Qed.


Lemma app_py_present (df : DataFrame) (pdf_clicked : bool) :
  required_present df -> rows df <> [] ->
  app_py (Some df) pdf_clicked
  = ((preamble ++ report_events df pdf_clicked)%list, Done tt).
Proof.
  intros H Hne. apply issubset_required in H. unfold app_py. rewrite H.
  cbn [negb]. rewrite (process_eq _ _ Hne). reflexivity.
Qed.

Lemma app_py_no_lines (df : DataFrame) (pdf_clicked : bool) :
  required_present df -> rows df = [] ->
  app_py (Some df) pdf_clicked
  = ((preamble ++ [st_subheader Transactions; st_dataframe [] (others df)])%list,
     Raised AttributeError).
Proof.
  intros H E. apply issubset_required in H. unfold app_py. rewrite H.
  cbn [negb]. rewrite (process_no_lines _ _ E). reflexivity.
Qed.

Lemma rows_nil_dec (df : DataFrame) : {rows df = []} + {rows df <> []}.
Proof. destruct (rows df); [now left | right; discriminate]. Qed.





(** Reading a column by its name is not disturbed by a column of another
    name, wherever it stands. *)
Section OtherColumn.
Context {raw : Type}.
Variable to_datetime : raw -> date.
Variable to_description : raw -> cell.
Variable to_amount : raw -> Q.
Variable to_text : raw -> string.
Variables (front back : list (string * list raw)) (name : string)
  (cells : list raw).
Hypothesis not_required : ~ In name required_cols.





End OtherColumn.



(** ** The charts *)

Lemma Qltb_lt (a b : Q) : Qltb a b = true <-> a < b.
Proof. apply Qgtb_lt. Qed.

Lemma no_negative_selected (rs : list Row) :
  (forall r, In r rs -> ~ Amount r < 0) ->
  filter (fun t : Txn => Qltb (Amount t) 0) (apply_categorize rs) = [].
Proof.
  intros H. induction rs as [|r rs IH]; [reflexivity|].
  cbn [apply_categorize map filter txn_row]. fold (apply_categorize rs).
  destruct (Qltb (Amount r) 0) eqn:E.
  - apply Qltb_lt in E. exfalso. exact (H r (or_introl eq_refl) E).
  - apply IH. intros r' Hr'. apply H. now right.
Qed.

Lemma bar_chart_series (df : DataFrame) (pdf_clicked : bool)
  (series : list (string * Q)) :
  In (st_bar_chart series) (trace (app_py (Some df) pdf_clicked)) ->
  series = expense_df (apply_categorize (rows df)) /\ series <> [].
Proof.
  unfold app_py. destruct (issubset required_cols (columns df)); cbn [negb].
  - destruct (rows_nil_dec df) as [E|Hne].
    + rewrite (process_no_lines _ _ E).
      cbn [trace fst bind emit ret List.app In]. intros H.
      repeat (destruct H as [H|H]; try discriminate); contradiction.
    + rewrite (process_eq _ _ Hne). unfold report_events.
      destruct (expense_df (apply_categorize (rows df))) as [|kv s] eqn:E;
        destruct pdf_clicked; cbn [trace fst bind emit ret List.app empty In];
        intros H;
        repeat (destruct H as [H|H]; try discriminate); try contradiction;
        inversion H; (split; [reflexivity | discriminate]).
  - cbn [trace fst bind emit ret List.app In]. intros H.
    repeat (destruct H as [H|H]; try discriminate); contradiction.
Qed.

(** C8, as the code has it.  When the table has lines and none has a
    negative amount, the expense series is empty and the bar chart is not called
    at all: the page gets no bar chart, the charting step goes on to the line
    chart, and the run ends without an exception.  On no table does the bar
    chart receive an empty series; a table without lines does not reach the
    charting step, the script having stopped at line 49. *)
Theorem empty_expenses_skip_bar_chart (df : DataFrame) (pdf_clicked : bool) :
  required_present df ->
  rows df <> [] ->
  (forall r, In r (rows df) -> ~ Amount r < 0) ->
  let page := trace (app_py (Some df) pdf_clicked) in
  expense_df (apply_categorize (rows df)) = [] /\
  (forall series, ~ In (st_bar_chart series) page) /\
  In (st_line_chart (cash_flow (apply_categorize (rows df)))) page /\
  result (app_py (Some df) pdf_clicked) = Done tt /\
  (forall df' clicked' series,
      In (st_bar_chart series) (trace (app_py (Some df') clicked')) ->
      series <> []) /\
  (forall df' clicked',
      required_present df' -> rows df' = [] ->
      ~ In (st_subheader Charts) (trace (app_py (Some df') clicked')) /\
      result (app_py (Some df') clicked') = Raised AttributeError).
Proof.
  intros Hreq Hne Hneg page.
  assert (E : expense_df (apply_categorize (rows df)) = []).
  { unfold expense_df. now rewrite no_negative_selected. }
  split; [exact E|]. split; [|split; [|split; [|split]]].
  - intros series Hin. apply bar_chart_series in Hin. destruct Hin as [-> Hne'].
    now apply Hne'.
  - subst page. rewrite (app_py_present _ _ Hreq Hne). cbn [trace fst].
    unfold report_events. rewrite E. cbn [empty List.app].
    find_event.
  - rewrite (app_py_present _ _ Hreq Hne). reflexivity.
  - intros df' clicked' series Hin. now apply bar_chart_series in Hin.
  - intros df' clicked' Hreq' Hnil. rewrite (app_py_no_lines _ _ Hreq' Hnil).
    cbn [trace fst result snd]. split; [|reflexivity].
    unfold preamble. cbn [In List.app]. intuition discriminate.
Qed.

Lemma empty_expenses_skip_bar_chart_witness :
  required_present deposit_only /\
  rows deposit_only <> [] /\
  (forall r, In r (rows deposit_only) -> ~ Amount r < 0) /\
  expense_df (apply_categorize (rows deposit_only)) = [] /\
  (forall series,
      ~ In (st_bar_chart series) (trace (app_py (Some deposit_only) true))) /\
  result (app_py (Some deposit_only) true) = Done tt.
Proof.
  assert (H1 : required_present deposit_only)
    by (unfold required_present; cbn; tauto).
  assert (H0 : rows deposit_only <> []) by discriminate.
  assert (H2 : forall r, In r (rows deposit_only) -> ~ Amount r < 0)
    by (intros r [<-|[]] H; vm_compute in H; discriminate).
  destruct (empty_expenses_skip_bar_chart deposit_only true H1 H0 H2)
    as [E [B [_ [D _]]]].
  exact (conj H1 (conj H0 (conj H2 (conj E (conj B D))))).
Defined.

(** ** The scenario of the specification *)

(** C2, as the code has it.  On the three lines Shell Fuel -50, Salary 2000,
    Office Rent -300 the categories are Fuel Expense, Payroll Expense and Rent
    Expense, so income = 0, expenses = 1650, net profit = 1650, assets = 1650,
    liabilities = 1650 and equity = 0. *)
Theorem scenario_figures :
  let df := apply_categorize (rows scenario) in
  map Category df = ["Fuel Expense"; "Payroll Expense"; "Rent Expense"] /\
  income df == 0 /\
  expenses df == 1650 /\
  net_profit df == 1650 /\
  total_assets df == 1650 /\
  total_liabilities df == 1650 /\
  equity df == 0 /\
  trace (app_py (Some scenario) false)
  = (preamble ++ report_events scenario false)%list.
Proof.
  cbv zeta. repeat split; try (vm_compute; reflexivity).
Qed.

(** C2 as the specification states it fails on the same three lines: the
    Salary line is a Payroll Expense, so the figures are not income = 2000,
    expenses = -350, liabilities = 350, equity = 1300. *)
Lemma scenario_figures_not_as_stated :
  let df := apply_categorize (rows scenario) in
  categorize (Text "Salary") 2000 = "Payroll Expense" /\
  ~ income df == 2000 /\
  ~ expenses df == -350 /\
  ~ total_liabilities df == 350 /\
  ~ equity df == 1300.
Proof.
  cbv zeta. repeat split; try reflexivity; intros H; vm_compute in H; discriminate.
Qed.

(** C8 as the specification states it fails on a statement with a single
    deposit: no line is negative, and the bar chart receives nothing, an
    empty series included. *)
Lemma bar_chart_receives_no_empty_series :
  required_present deposit_only /\
  (forall r, In r (rows deposit_only) -> ~ Amount r < 0) /\
  ~ In (st_bar_chart []) (trace (app_py (Some deposit_only) false)) /\
  existsb (fun e => match e with st_bar_chart _ => true | _ => false end)
    (trace (app_py (Some deposit_only) false)) = false.
Proof.
  split; [|split; [|split]].
  - unfold required_present. cbn. tauto.
  - intros r [<-|[]]. intros H. vm_compute in H. discriminate.
  - intros H. apply bar_chart_series in H. destruct H as [_ H]. now apply H.
  - vm_compute. reflexivity.
Qed.

(** * Further properties of the code *)

(** ** More on the categorizer *)

Lemma no_keyword_iff (description : cell) :
  ~ has_keyword description <->
  (forall k, In k keywords -> ~ Substring k (lower (str description))).
Proof.
  unfold has_keyword. split.
  - intros H k Hk Hs. apply H. now exists k.
  - intros H [k [Hk Hs]]. exact (H k Hk Hs).
Qed.

Lemma keyword_label (description : cell) (amount : Q) :
  has_keyword description ->
  In (categorize description amount)
     ["Fuel Expense"; "Payroll Expense"; "Rent Expense"; "Tax"].
Proof.
  intros [k [Hk Hsub]]. unfold categorize. cbn [existsb]. rewrite orb_false_r.
  set (desc := lower (str description)) in *.
  destruct (contains "shell" desc || contains "fuel" desc) eqn:Hfuel;
    [cbn; tauto|].
  destruct (contains "salary" desc || contains "payroll" desc) eqn:Hpayroll;
    [cbn; tauto|].
  destruct (contains "rent" desc) eqn:Hrent; [cbn; tauto|].
  destruct (contains "tax" desc || contains "vat" desc) eqn:Htax; [cbn; tauto|].
  reflect_contains. exfalso. unfold keywords in Hk. cbn [In] in Hk.
  repeat destruct Hk as [Hk|Hk]; try contradiction; subst k; tauto.
Qed.

(** The two labels of the sign default go to the descriptions without
    keyword, by the outcome of the test on the amount. *)
Lemma sign_default_by_keyword (description : cell) (amount : Q) :
  (categorize description amount = "Sales Income" <->
   0 < amount /\ ~ has_keyword description) /\
  (categorize description amount = "Other Expense" <->
   amount <= 0 /\ ~ has_keyword description).
Proof.
  assert (Hkw : has_keyword description ->
                categorize description amount <> "Sales Income"
                /\ categorize description amount <> "Other Expense").
  { intros H. pose proof (keyword_label description amount H) as L.
    cbn [In] in L. split; intros E; rewrite E in L;
      repeat destruct L as [L|L]; try discriminate; contradiction. }
  assert (Hdef : ~ has_keyword description ->
                 categorize description amount = sign_default amount).
  { intros H. apply categorize_no_keyword. now apply no_keyword_iff. }
  assert (Hdec : has_keyword description \/ ~ has_keyword description).
  { destruct (In_dec string_dec (categorize description amount)
                ["Fuel Expense"; "Payroll Expense"; "Rent Expense"; "Tax"])
      as [Hin|Hout].
    - unfold categorize in Hin. cbn [existsb] in Hin. rewrite orb_false_r in Hin.
      set (desc := lower (str description)) in *.
      destruct (contains "shell" desc || contains "fuel" desc) eqn:Hfuel.
      { left. apply contains_either in Hfuel.
        destruct Hfuel; [exists "shell" | exists "fuel"]; (split; [cbn; tauto | assumption]). }
      destruct (contains "salary" desc || contains "payroll" desc) eqn:Hpayroll.
      { left. apply contains_either in Hpayroll.
        destruct Hpayroll; [exists "salary" | exists "payroll"];
          (split; [cbn; tauto | assumption]). }
      destruct (contains "rent" desc) eqn:Hrent.
      { left. apply contains_Substring in Hrent.
        exists "rent". split; [cbn; tauto | assumption]. }
      destruct (contains "tax" desc || contains "vat" desc) eqn:Htax.
      { left. apply contains_either in Htax.
        destruct Htax; [exists "tax" | exists "vat"];
          (split; [cbn; tauto | assumption]). }
      exfalso. destruct (Qgtb amount 0); cbn [In] in Hin;
        repeat destruct Hin as [Hin|Hin]; try discriminate; contradiction.
    - right. intros H. apply Hout. now apply keyword_label. }
  split; split.
  - intros E. destruct Hdec as [H|H]; [exfalso; now apply (proj1 (Hkw H))|].
    split; [|exact H]. rewrite (Hdef H) in E. unfold sign_default in E.
    destruct (Qgtb amount 0) eqn:G; [now apply Qgtb_lt | discriminate].
  - intros [Hpos H]. rewrite (Hdef H). unfold sign_default.
    apply Qgtb_lt in Hpos. now rewrite Hpos.
  - intros E. destruct Hdec as [H|H]; [exfalso; now apply (proj2 (Hkw H))|].
    split; [|exact H]. rewrite (Hdef H) in E. unfold sign_default in E.
    destruct (Qgtb amount 0) eqn:G; [discriminate|].
    apply Qnot_lt_le. intros L. apply Qgtb_lt in L. congruence.
  - intros [Hle H]. rewrite (Hdef H). unfold sign_default.
    destruct (Qgtb amount 0) eqn:G; [|reflexivity].
    apply Qgtb_lt in G. exfalso. exact (Qlt_not_le _ _ G Hle).
Qed.


Lemma sales_amount_positive (rs : list Row) (t : Txn) :
  In t (apply_categorize rs) -> Category t = "Sales Income" -> 0 < Amount t.
Proof.
  unfold apply_categorize. rewrite in_map_iff. intros [r [<- _]] E.
  cbn [Category txn_row] in *. unfold categorize in E.
  repeat match type of E with
    | (if ?b then _ else _) = _ => destruct b eqn:?; try discriminate
    end.
  now apply Qgtb_lt.
Qed.

(** ** Descriptions that are numbers, and the case of letters *)

Lemma all_chars_append (p : ascii -> bool) (s s' : string) :
  all_chars p (s ++ s') = all_chars p s && all_chars p s'.
Proof.
  induction s as [|c s IH]; [reflexivity|].
  cbn [append all_chars]. now rewrite IH, andb_assoc.
Qed.

Lemma all_chars_Substring (p : ascii -> bool) (sub s : string) :
  all_chars p s = true -> Substring sub s -> all_chars p sub = true.
Proof.
  intros H [pre [post ->]]. rewrite !all_chars_append in H.
  apply andb_true_iff in H. destruct H as [_ H].
  apply andb_true_iff in H. tauto.
Qed.

Lemma lower_char_digit (c : ascii) :
  is_digit_or_minus c = true -> lower_char c = c.
Proof.
  destruct c as [[] [] [] [] [] [] [] []]; intros H;
    try reflexivity; discriminate H.
Qed.

Lemma lower_digits (s : string) :
  all_chars is_digit_or_minus s = true -> lower s = s.
Proof.
  induction s as [|c s IH]; [reflexivity|].
  cbn [all_chars lower]. intros H. apply andb_true_iff in H.
  destruct H as [Hc Hs]. now rewrite (lower_char_digit c Hc), (IH Hs).
Qed.

Lemma string_of_uint_digits (d : Decimal.uint) :
  all_chars is_digit_or_minus (NilEmpty.string_of_uint d) = true.
Proof. induction d; cbn [NilEmpty.string_of_uint all_chars]; auto. Qed.

Lemma str_Int_digits (z : Z) : all_chars is_digit_or_minus (str (Int z)) = true.
Proof.
  unfold str, NilZero.string_of_int.
  assert (H : forall d, all_chars is_digit_or_minus (NilZero.string_of_uint d) = true).
  { intros d. destruct d; try reflexivity; apply string_of_uint_digits. }
  destruct (Z.to_int z) as [d|d]; [apply H|].
  cbn [all_chars]. now rewrite H.
Qed.

(** X6.  A description that is an integer (a Description column of numbers)
    has no keyword in it: its label is decided by the sign of the amount
    alone. *)
Theorem integer_description_by_sign (z : Z) (amount : Q) :
  ~ has_keyword (Int z) /\
  (0 < amount -> categorize (Int z) amount = "Sales Income") /\
  (amount <= 0 -> categorize (Int z) amount = "Other Expense").
Proof.
  assert (Hno : forall k, In k keywords -> ~ Substring k (lower (str (Int z)))).
  { intros k Hk Hs. rewrite (lower_digits _ (str_Int_digits z)) in Hs.
    pose proof (all_chars_Substring _ _ _ (str_Int_digits z) Hs) as A.
    unfold keywords in Hk. cbn [In] in Hk.
    repeat destruct Hk as [Hk|Hk]; try contradiction; subst k; discriminate A. }
  split; [now apply no_keyword_iff|].
  rewrite (categorize_no_keyword _ _ Hno). unfold sign_default. split.
  - intros Hpos. apply Qgtb_lt in Hpos. now rewrite Hpos.
  - intros Hle. destruct (Qgtb amount 0) eqn:G; [|reflexivity].
    apply Qgtb_lt in G. exfalso. exact (Qlt_not_le _ _ G Hle).
Qed.

Lemma lower_char_same_letter (c c' : ascii) :
  same_letter c c' -> lower_char c = lower_char c'.
Proof.
  assert (Hup : forall a b : ascii,
             is_upper a = true -> N_of_ascii b = (N_of_ascii a + 32)%N ->
             lower_char a = lower_char b).
  { intros a b Ha Hb.
    rewrite <- (ascii_N_embedding b), Hb.
    destruct a as [[] [] [] [] [] [] [] []]; try discriminate Ha; reflexivity. }
  intros [->|[[H1 H2]|[H1 H2]]].
  - reflexivity.
  - now apply Hup.
  - symmetry. now apply Hup.
Qed.

Lemma lower_eq_ignoring_case (s s' : string) :
  eq_ignoring_case s s' -> lower s = lower s'.
Proof.
  revert s'. induction s as [|c s IH]; intros [|c' s']; cbn [eq_ignoring_case lower];
    try tauto.
  intros [Hc Hs]. now rewrite (lower_char_same_letter c c' Hc), (IH s' Hs).
Qed.

(** X7.  The keyword search ignores the case of letters: two descriptions
    that differ only by the case of ASCII letters get the same label, whatever
    the amount. *)
Theorem categorize_ignores_case (s s' : string) (amount : Q) :
  eq_ignoring_case s s' ->
  categorize (Text s) amount = categorize (Text s') amount.
Proof.
  intros H. unfold categorize. cbn [str].
  now rewrite (lower_eq_ignoring_case s s' H).
Qed.

Lemma categorize_ignores_case_witness :
  eq_ignoring_case "PayRoll May" "PAYROLL may" /\
  categorize (Text "PayRoll May") (-900) = categorize (Text "PAYROLL may") (-900).
Proof.
  assert (H : eq_ignoring_case "PayRoll May" "PAYROLL may").
  { cbn [eq_ignoring_case]. unfold same_letter.
    repeat split;
      first [ left; reflexivity
            | right; left; split; reflexivity
            | right; right; split; reflexivity ]. }
  exact (conj H (categorize_ignores_case "PayRoll May" "PAYROLL may" (-900) H)).
Defined.

(** ** Grouping *)

(** The keys of a group-by are told apart by [eqb] and ordered by [leb]. *)
Section Grouping.
Context {K : Type} (eqb leb : K -> K -> bool).
Hypothesis eqb_eq : forall a b, eqb a b = true <-> a = b.
Hypothesis leb_total : forall a b, leb a b = true \/ leb b a = true.
Hypothesis leb_trans :
  forall a b c, leb a b = true -> leb b c = true -> leb a c = true.
Hypothesis leb_antisym : forall a b, leb a b = true -> leb b a = true -> a = b.

Lemma eqb_same (a : K) : eqb a a = true.
Proof. now apply eqb_eq. Qed.

Lemma before_trans (a b c : K) : before leb a b -> before leb b c -> before leb a c.
Proof.
  intros [Hab Nab] [Hbc Nbc]. split; [now apply leb_trans with b|].
  intros ->. apply Nab. now apply leb_antisym.
Qed.

Lemma insert_key_In (x k : K) (ks : list K) :
  In x (insert_key eqb leb k ks) <-> x = k \/ In x ks.
Proof.
  induction ks as [|h t IH]; cbn [insert_key In].
  - intuition.
  - destruct (eqb k h) eqn:E.
    + apply eqb_eq in E. subst h. cbn [In]. intuition.
    + destruct (leb k h); cbn [In]; [intuition | rewrite IH; intuition].
Qed.

Lemma fold_insert_In (x : K) (ks acc : list K) :
  In x (fold_left (fun a k => insert_key eqb leb k a) ks acc)
  <-> In x acc \/ In x ks.
Proof.
  revert acc. induction ks as [|k ks IH]; intros acc; cbn [fold_left In].
  - tauto.
  - rewrite IH, insert_key_In. intuition.
Qed.

Lemma group_keys_In (x : K) (ks : list K) :
  In x (group_keys eqb leb ks) <-> In x ks.
Proof. unfold group_keys. rewrite fold_insert_In. cbn [In]. tauto. Qed.

Lemma insert_key_sorted (k : K) (ks : list K) :
  StronglySorted (before leb) ks -> StronglySorted (before leb) (insert_key eqb leb k ks).
Proof.
  induction ks as [|h t IH]; intros H; cbn [insert_key].
  - repeat constructor.
  - destruct (eqb k h) eqn:E; [exact H|].
    assert (Hne : k <> h).
    { intros ->. rewrite eqb_same in E. discriminate. }
    inversion H as [|? ? Ht Hh]; subst.
    destruct (leb k h) eqn:L.
    + assert (Hkh : before leb k h) by (split; assumption).
      constructor; [exact H|]. constructor; [exact Hkh|].
      rewrite Forall_forall in *. intros x Hx.
      apply before_trans with h; [exact Hkh | now apply Hh].
    + assert (Hhk : before leb h k).
      { split; [|congruence]. destruct (leb_total k h); congruence. }
      constructor; [now apply IH|].
      rewrite Forall_forall in *. intros x Hx.
      apply insert_key_In in Hx. destruct Hx as [->|Hx]; [exact Hhk | now apply Hh].
Qed.

Lemma group_keys_strictly_sorted (ks : list K) :
  StronglySorted (before leb) (group_keys eqb leb ks).
Proof.
  unfold group_keys.
  assert (H : forall acc, StronglySorted (before leb) acc ->
                          StronglySorted (before leb)
                            (fold_left (fun a k => insert_key eqb leb k a) ks acc)).
  { induction ks as [|k ks IH]; intros acc Hacc; cbn [fold_left].
    - exact Hacc.
    - apply IH. now apply insert_key_sorted. }
  apply H. constructor.
Qed.

Lemma sorted_NoDup (ks : list K) : StronglySorted (before leb) ks -> NoDup ks.
Proof.
  induction 1 as [|k ks _ IH Hk]; constructor; [|exact IH].
  intros Hin. rewrite Forall_forall in Hk. destruct (Hk k Hin) as [_ Hne].
  now apply Hne.
Qed.

Lemma group_keys_NoDup (ks : list K) : NoDup (group_keys eqb leb ks).
Proof. apply sorted_NoDup, group_keys_strictly_sorted. Qed.

Lemma groupby_sum_keys (key : Txn -> K) (df : list Txn) :
  map fst (groupby_sum eqb leb key df) = group_keys eqb leb (map key df).
Proof.
  unfold groupby_sum. rewrite map_map. cbn [fst]. apply map_id.
Qed.

Lemma groupby_sum_In (key : Txn -> K) (df : list Txn) (k : K) (v : Q) :
  In (k, v) (groupby_sum eqb leb key df) <->
  (exists t, In t df /\ key t = k) /\ v = group_total eqb key df k.
Proof.
  unfold groupby_sum. rewrite in_map_iff. split.
  - intros [k' [E Hin]]. inversion E; subst. split; [|reflexivity].
    apply group_keys_In, in_map_iff in Hin. destruct Hin as [t [Ht Hin]].
    now exists t.
  - intros [[t [Hin Ht]] ->]. exists k. split; [reflexivity|].
    apply group_keys_In, in_map_iff. now exists t.
Qed.
End Grouping.

(** ** The orders of the group keys *)

Lemma string_compare_le_trans (a b c : string) :
  String.compare a b <> Gt -> String.compare b c <> Gt ->
  String.compare a c <> Gt.
Proof.
  revert b c. induction a as [|x a IH]; intros [|y b] [|z c];
    cbn [String.compare]; try congruence.
  unfold Ascii.compare.
  destruct (N.compare_spec (N_of_ascii x) (N_of_ascii y)) as [Exy|Lxy|Gxy];
    destruct (N.compare_spec (N_of_ascii y) (N_of_ascii z)) as [Eyz|Lyz|Gyz];
    destruct (N.compare_spec (N_of_ascii x) (N_of_ascii z)) as [Exz|Lxz|Gxz];
    try congruence; try (exfalso; lia).
  apply IH.
Qed.

Lemma string_leb_trans (a b c : string) :
  String.leb a b = true -> String.leb b c = true -> String.leb a c = true.
Proof.
  unfold String.leb. intros Hab Hbc.
  assert (H : String.compare a c <> Gt).
  { apply string_compare_le_trans with b.
    - destruct (String.compare a b); congruence.
    - destruct (String.compare b c); congruence. }
  destruct (String.compare a c); congruence.
Qed.

Lemma date_eqb_eq (a b : date) : date_eqb a b = true <-> a = b.
Proof.
  destruct a as [y m d], b as [y' m' d']. unfold date_eqb. cbn [year month day].
  rewrite !andb_true_iff, !Z.eqb_eq. split.
  - intros [[-> ->] ->]. reflexivity.
  - intros E. inversion E. tauto.
Qed.

Ltac date_order :=
  unfold date_leb; cbn [year month day];
  rewrite ?orb_true_iff, ?andb_true_iff, ?Z.ltb_lt, ?Z.eqb_eq, ?Z.leb_le.

Lemma date_leb_total (a b : date) : date_leb a b = true \/ date_leb b a = true.
Proof. destruct a as [y m d], b as [y' m' d']. date_order. lia. Qed.

Lemma date_leb_trans (a b c : date) :
  date_leb a b = true -> date_leb b c = true -> date_leb a c = true.
Proof.
  destruct a as [y m d], b as [y' m' d'], c as [y'' m'' d''].
  date_order. lia.
Qed.

Lemma date_leb_antisym (a b : date) :
  date_leb a b = true -> date_leb b a = true -> a = b.
Proof.
  destruct a as [y m d], b as [y' m' d']. date_order. intros H H'.
  assert (y = y' /\ m = m' /\ d = d') as [-> [-> ->]] by lia. reflexivity.
Qed.

(** ** The expense chart *)

Lemma is_negative_lt (t : Txn) : is_negative t = true <-> Amount t < 0.
Proof. apply Qltb_lt. Qed.

Lemma expense_df_labels (df : list Txn) :
  map fst (expense_df df)
  = group_keys String.eqb String.leb (map Category (filter is_negative df)).
Proof.
  unfold expense_df, series_abs. rewrite map_map. cbn [fst].
  apply groupby_sum_keys.
Qed.

Lemma expense_df_In (df : list Txn) (label : string) (v : Q) :
  In (label, v) (expense_df df) <->
  (exists t, In t df /\ Amount t < 0 /\ Category t = label) /\
  v = Qabs (group_total String.eqb Category (filter is_negative df) label).
Proof.
  unfold expense_df, series_abs. rewrite in_map_iff. split.
  - intros [[k x] [E Hin]]. cbn [fst snd] in E. inversion E; subst.
    apply (groupby_sum_In String.eqb String.leb String.eqb_eq) in Hin.
    destruct Hin as [[t [Hin Ht]] ->]. split; [|reflexivity].
    apply filter_In in Hin. destruct Hin as [Hin Hneg].
    exists t. split; [exact Hin|]. split; [now apply is_negative_lt | exact Ht].
  - intros [[t [Hin [Hneg Ht]]] ->].
    exists (label, group_total String.eqb Category (filter is_negative df) label).
    split; [reflexivity|].
    apply (groupby_sum_In String.eqb String.leb String.eqb_eq).
    split; [|reflexivity]. exists t. split; [|exact Ht].
    apply filter_In. split; [exact Hin | now apply is_negative_lt].
Qed.

(** X8.  The bars of the expense chart: there is one bar for each category
    that has a line with a negative amount and no other bar, no label comes
    twice, and the bars come in the alphabetical order of their labels. *)
Theorem expense_chart_labels (df : list Txn) :
  let labels := map fst (expense_df df) in
  (forall label,
      In label labels <->
      exists t, In t df /\ Amount t < 0 /\ Category t = label) /\
  NoDup labels /\
  StronglySorted (before String.leb) labels.
Proof.
  intros labels. subst labels. rewrite expense_df_labels. split; [|split].
  - intros label. rewrite (group_keys_In String.eqb String.leb String.eqb_eq).
    rewrite in_map_iff. split.
    + intros [t [Ht Hin]]. apply filter_In in Hin. destruct Hin as [Hin Hneg].
      exists t. split; [exact Hin|]. split; [now apply is_negative_lt | exact Ht].
    + intros [t [Hin [Hneg Ht]]]. exists t. split; [exact Ht|].
      apply filter_In. split; [exact Hin | now apply is_negative_lt].
  - apply (group_keys_NoDup String.eqb String.leb String.eqb_eq String.leb_total
             string_leb_trans String.leb_antisym).
  - apply (group_keys_strictly_sorted String.eqb String.leb String.eqb_eq
             String.leb_total string_leb_trans String.leb_antisym).
Qed.

Lemma negative_row_iff (rs : list Row) :
  (exists t, In t (apply_categorize rs) /\ Amount t < 0) <->
  (exists r, In r rs /\ Amount r < 0).
Proof.
  unfold apply_categorize. split.
  - intros [t [Hin Hneg]]. apply in_map_iff in Hin. destruct Hin as [r [<- Hr]].
    now exists r.
  - intros [r [Hr Hneg]].
    exists (mkTxn r (categorize (Description r) (Amount r))).
    split; [|exact Hneg]. apply in_map_iff. now exists r.
Qed.

Lemma expense_df_empty_iff (df : list Txn) :
  expense_df df = [] <-> ~ exists t, In t df /\ Amount t < 0.
Proof.
  split.
  - intros E [t [Hin Hneg]].
    assert (H : In (Category t,
                    Qabs (group_total String.eqb Category
                            (filter is_negative df) (Category t)))
                  (expense_df df)).
    { apply expense_df_In. split; [|reflexivity]. now exists t. }
    rewrite E in H. contradiction.
  - intros Hno. destruct (expense_df df) as [|[k v] s] eqn:E; [reflexivity|].
    exfalso. apply Hno.
    assert (H : In (k, v) (expense_df df)) by (rewrite E; now left).
    apply expense_df_In in H. destruct H as [[t [Hin [Hneg _]]] _]. now exists t.
Qed.

(** X10.  On a run past the column check the bar chart is drawn exactly when
    some line of the statement has a negative amount, and what it is given is
    the expense series of the table. *)
Theorem bar_chart_iff_negative_line (df : DataFrame) (pdf_clicked : bool) :
  required_present df ->
  let page := trace (app_py (Some df) pdf_clicked) in
  ((exists series, In (st_bar_chart series) page) <->
   (exists r, In r (rows df) /\ Amount r < 0)) /\
  (forall series,
      In (st_bar_chart series) page ->
      series = expense_df (apply_categorize (rows df))).
Proof.
  intros Hreq page. split; [split|].
  - intros [series Hin]. apply bar_chart_series in Hin. destruct Hin as [-> Hne].
    apply negative_row_iff.
    destruct (expense_df (apply_categorize (rows df))) as [|[k v] s] eqn:E;
      [congruence|].
    assert (H : In (k, v) (expense_df (apply_categorize (rows df))))
      by (rewrite E; now left).
    apply expense_df_In in H. destruct H as [[t [Hin [Hneg _]]] _]. now exists t.
  - intros Hex.
    assert (Hne : rows df <> []).
    { destruct Hex as [r [Hr _]]. intros E. rewrite E in Hr. contradiction. }
    apply negative_row_iff in Hex.
    exists (expense_df (apply_categorize (rows df))).
    subst page. rewrite (app_py_present _ _ Hreq Hne). cbn [trace fst].
    unfold report_events.
    destruct (expense_df (apply_categorize (rows df))) as [|kv s] eqn:E.
    + exfalso. apply expense_df_empty_iff in E. now apply E.
    + cbn [empty]. find_event.
  - intros series Hin. now apply bar_chart_series in Hin.
Qed.

Lemma bar_chart_iff_negative_line_witness :
  required_present scenario /\
  (exists r, In r (rows scenario) /\ Amount r < 0) /\
  (exists series, In (st_bar_chart series) (trace (app_py (Some scenario) false))).
Proof.
  assert (Hreq : required_present scenario)
    by (unfold required_present; cbn; tauto).
  assert (Hneg : exists r, In r (rows scenario) /\ Amount r < 0).
  { exists (mkRow (mkdate 2024 1 1) (Text "Shell Fuel") (-50)).
    split; [now left | reflexivity]. }
  pose proof (bar_chart_iff_negative_line scenario false Hreq) as P.
  cbv zeta in P.
  exact (conj Hreq (conj Hneg (proj2 (proj1 P) Hneg))).
Defined.

(** X11.  On the table the categorizer produced the expense chart never has
    a Sales Income bar: its labels are among Fuel Expense, Payroll Expense, Rent
    Expense, Tax and Other Expense, so it has at most five bars.  A Tax line
    with a negative amount gets a bar although it is not part of expenses. *)
Theorem expense_chart_at_most_five_bars (rs : list Row) :
  let labels := map fst (expense_df (apply_categorize rs)) in
  (forall label, In label labels -> In label chart_labels) /\
  ~ In "Sales Income" labels /\
  (List.length (expense_df (apply_categorize rs)) <= 5)%nat /\
  (forall t, In t (apply_categorize rs) -> Category t = "Tax" -> Amount t < 0 ->
             In "Tax" labels /\ is_expense t = false).
Proof.
  intros labels.
  assert (Hlab : forall label, In label labels ->
                   exists t, In t (apply_categorize rs)
                             /\ Amount t < 0 /\ Category t = label).
  { intros label Hin. subst labels. apply in_map_iff in Hin.
    destruct Hin as [[k v] [<- Hin]]. cbn [fst].
    apply expense_df_In in Hin. tauto. }
  assert (Hnosales : ~ In "Sales Income" labels).
  { intros Hin. destruct (Hlab _ Hin) as [t [Ht [Hneg Hc]]].
    pose proof (sales_amount_positive rs t Ht Hc) as Hpos.
    exact (Qlt_irrefl _ (Qlt_trans _ _ _ Hpos Hneg)). }
  assert (Hincl : forall label, In label labels -> In label chart_labels).
  { intros label Hin. destruct (Hlab _ Hin) as [t [Ht [_ Hc]]].
    pose proof (apply_categorize_label rs t Ht) as Hcat. rewrite Hc in Hcat.
    unfold categories in Hcat. unfold chart_labels. cbn [In] in Hcat |- *.
    destruct Hcat as [H|[H|[H|[H|[H|[H|[]]]]]]]; try tauto.
    exfalso. apply Hnosales. now rewrite H. }
  split; [exact Hincl|]. split; [exact Hnosales|]. split.
  - rewrite <- (length_map fst). fold labels.
    change 5%nat with (List.length chart_labels).
    apply NoDup_incl_length; [|exact Hincl].
    subst labels. rewrite expense_df_labels.
    apply (group_keys_NoDup String.eqb String.leb String.eqb_eq String.leb_total
             string_leb_trans String.leb_antisym).
  - intros t Hin Hc Hneg. split.
    + subst labels. apply in_map_iff.
      exists ("Tax", Qabs (group_total String.eqb Category
                             (filter is_negative (apply_categorize rs)) "Tax")).
      split; [reflexivity|]. apply expense_df_In. split; [|reflexivity].
      now exists t.
    + unfold is_expense. now rewrite Hc.
Qed.

(** ** The running balance *)

Lemma cumsum_from_keys {K : Type} (acc : Q) (s : list (K * Q)) :
  map fst (cumsum_from acc s) = map fst s.
Proof.
  revert acc. induction s as [|[k v] s IH]; intros acc; [reflexivity|].
  cbn [cumsum_from map fst]. now rewrite IH.
Qed.

Lemma cumsum_keys {K : Type} (s : list (K * Q)) :
  map fst (cumsum s) = map fst s.
Proof.
  destruct s as [|[k v] s]; [reflexivity|].
  cbn [cumsum map fst]. now rewrite cumsum_from_keys.
Qed.


Lemma cash_flow_keys (df : list Txn) :
  map fst (cash_flow df) = group_keys date_eqb date_leb (map (fun t : Txn => Date t) df).
Proof. unfold cash_flow. rewrite cumsum_keys. apply groupby_sum_keys. Qed.

(** X12.  The points of the balance chart: one point for each date that
    occurs in the statement and no other, in strictly increasing order of date
    (so no date comes twice). *)
Theorem cash_flow_dates (df : list Txn) :
  let dates := map fst (cash_flow df) in
  (forall d, In d dates <-> exists t, In t df /\ Date t = d) /\
  StronglySorted (before date_leb) dates /\
  NoDup dates.
Proof.
  intros dates. subst dates. rewrite cash_flow_keys. split; [|split].
  - intros d. rewrite (group_keys_In date_eqb date_leb date_eqb_eq).
    rewrite in_map_iff. split; intros [t H]; exists t; tauto.
  - apply (group_keys_strictly_sorted date_eqb date_leb date_eqb_eq
             date_leb_total date_leb_trans date_leb_antisym).
  - apply (group_keys_NoDup date_eqb date_leb date_eqb_eq
             date_leb_total date_leb_trans date_leb_antisym).
Qed.


(** ** Keywords, amounts and surrounding text *)

(** X15.  When the description has a keyword the amount plays no part: the
    label is the same for every amount, positive, zero or negative. *)
Theorem keyword_label_ignores_amount (description : cell) (amount amount' : Q) :
  has_keyword description ->
  categorize description amount = categorize description amount'.
Proof.
  intros H. pose proof (keyword_label description amount H) as L.
  revert L. unfold categorize.
  repeat match goal with
    | |- context [if ?b then _ else _] =>
        match b with
        | Qgtb _ _ => fail 1
        | _ => destruct b; [reflexivity|]
        end
    end.
  intros L. exfalso.
  destruct (Qgtb amount 0); cbn [In] in L;
    repeat destruct L as [L|L]; try discriminate; contradiction.
Qed.

Lemma keyword_label_ignores_amount_witness :
  has_keyword (Text "Salary March") /\
  categorize (Text "Salary March") 2500 = categorize (Text "Salary March") (-2500).
Proof.
  assert (H : has_keyword (Text "Salary March")).
  { exists "salary". split; [cbn; tauto | apply contains_Substring; reflexivity]. }
  exact (conj H (keyword_label_ignores_amount (Text "Salary March") 2500 (-2500) H)).
Defined.

Lemma lower_append (s s' : string) : lower (s ++ s') = lower s ++ lower s'.
Proof.
  induction s as [|c s IH]; [reflexivity|].
  cbn [append lower]. now rewrite IH.
Qed.

(** X16.  A description with "fuel" or "shell" anywhere in it, in any mix of
    upper and lower case and even inside a longer word, is a Fuel Expense,
    whatever else the description says and whatever the amount. *)
Theorem fuel_anywhere (pre word post : string) (amount : Q) :
  eq_ignoring_case word "fuel" \/ eq_ignoring_case word "shell" ->
  categorize (Text (pre ++ word ++ post)) amount = "Fuel Expense".
Proof.
  intros H. unfold categorize. cbn [str]. rewrite !lower_append.
  assert (Hsub : Substring "shell" (lower pre ++ lower word ++ lower post)
                 \/ Substring "fuel" (lower pre ++ lower word ++ lower post)).
  { destruct H as [H|H]; apply lower_eq_ignoring_case in H; rewrite H;
      [right | left]; exists (lower pre), (lower post); reflexivity. }
  apply contains_either in Hsub. now rewrite Hsub.
Qed.

Lemma fuel_anywhere_witness :
  (eq_ignoring_case "Shell" "fuel" \/ eq_ignoring_case "Shell" "shell") /\
  categorize (Text "Seafood: Shellfish platter, rent a boat") 45 = "Fuel Expense".
Proof.
  assert (H : eq_ignoring_case "Shell" "fuel" \/ eq_ignoring_case "Shell" "shell").
  { right. cbn [eq_ignoring_case]. unfold same_letter.
    repeat split;
      first [ left; reflexivity | right; left; split; reflexivity ]. }
  exact (conj H (fuel_anywhere "Seafood: " "Shell" "fish platter, rent a boat" 45 H)).
Defined.

(** ** More on the script *)

Lemma pdf_event (df : DataFrame) (pdf_clicked : bool) (cells : list pdf_cell) :
  In (st_download_pdf cells) (preamble ++ report_events df pdf_clicked) ->
  pdf_clicked = true /\
  cells = (let t := apply_categorize (rows df) in
           pdf_lines (income t) (expenses t) (net_profit t) (total_assets t)
             (total_liabilities t) (equity t) (dcf_ev (net_profit t))
             (ev_ebitda (net_profit t)) (ev_revenue (income t))).
Proof.
  unfold preamble, report_events.
  destruct (empty (expense_df (apply_categorize (rows df)))), pdf_clicked;
    cbn [List.app In]; intros H;
    repeat (destruct H as [H|H]; try discriminate); try contradiction;
    inversion H; (split; reflexivity).
Qed.

(** X17.  The exports of a run on a table with lines: the workbook is
    offered on every such run, as the last thing on the page; the PDF is
    produced exactly when its button was clicked; it starts with the title
    "Financial Report", goes on with the six figures of the Statements sheet
    under the same labels followed by a colon, and ends with the three
    valuation proxies. *)
Theorem exports_offered (df : DataFrame) (pdf_clicked : bool) :
  required_present df ->
  rows df <> [] ->
  let page := trace (app_py (Some df) pdf_clicked) in
  let t := apply_categorize (rows df) in
  let sheet := statements (income t) (expenses t) (net_profit t)
                 (total_assets t) (total_liabilities t) (equity t) in
  last page st_title = st_download_excel t (others df) sheet /\
  ((exists cells, In (st_download_pdf cells) page) <-> pdf_clicked = true) /\
  (forall cells,
      In (st_download_pdf cells) page ->
      cells
      = (pdf_title "Financial Report"
         :: map (fun lv => pdf_figure (fst lv ++ ":") (snd lv)) sheet
         ++ [pdf_figure "DCF EV:" (dcf_ev (net_profit t));
             pdf_figure "EV/EBITDA EV:" (ev_ebitda (net_profit t));
             pdf_figure "Revenue Multiple EV:" (ev_revenue (income t))])%list).
Proof.
  intros Hreq Hne page t sheet. subst page.
  rewrite (app_py_present _ _ Hreq Hne). cbn [trace fst]. split; [|split].
  - unfold preamble, report_events.
    destruct (empty (expense_df (apply_categorize (rows df)))), pdf_clicked;
      reflexivity.
  - split.
    + intros [cells Hin]. now apply pdf_event in Hin.
    + intros ->. eexists. unfold report_events. find_event.
  - intros cells Hin. apply pdf_event in Hin. destruct Hin as [_ ->].
    reflexivity.
Qed.

Lemma exports_offered_witness :
  required_present scenario /\
  rows scenario <> [] /\
  (exists cells, In (st_download_pdf cells) (trace (app_py (Some scenario) true))) /\
  ~ (exists cells, In (st_download_pdf cells) (trace (app_py (Some scenario) false))).
Proof.
  assert (Hreq : required_present scenario)
    by (unfold required_present; cbn; tauto).
  assert (Hne : rows scenario <> []) by discriminate.
  pose proof (exports_offered scenario true Hreq Hne) as P.
  pose proof (exports_offered scenario false Hreq Hne) as N.
  cbv zeta in P, N.
  refine (conj Hreq (conj Hne (conj (proj2 (proj1 (proj2 P)) eq_refl) _))).
  intros H. apply (proj1 (proj1 (proj2 N))) in H. discriminate H.
Defined.

(** X18.  A statement without lines (a header with the three columns and
    nothing below) does not go through: the empty table is shown, then the
    [.str] accessor of line 49 raises AttributeError; no figure, ratio, chart
    or download reaches the page. *)
Theorem statement_without_lines_raises (df : DataFrame) (pdf_clicked : bool) :
  required_present df ->
  rows df = [] ->
  trace (app_py (Some df) pdf_clicked)
  = (preamble ++ [st_subheader Transactions; st_dataframe [] (others df)])%list /\
  result (app_py (Some df) pdf_clicked) = Raised AttributeError.
Proof.
  intros Hreq E. rewrite (app_py_no_lines _ _ Hreq E). split; reflexivity.
Qed.

Lemma statement_without_lines_raises_witness :
  required_present header_only /\
  rows header_only = [] /\
  result (app_py (Some header_only) false) = Raised AttributeError.
Proof.
  assert (Hreq : required_present header_only)
    by (unfold required_present; cbn; tauto).
  exact (conj Hreq (conj eq_refl
           (proj2 (statement_without_lines_raises header_only false Hreq eq_refl)))).
Defined.

(** X19.  The column check looks at names only: a header passes exactly
    when it has the three names Date, Description and Amount, spelled so; their
    order and the presence of other or repeated columns play no part, so a
    header with all the names of a passing header passes too. *)
Theorem column_check_by_names (cols cols' : list string) :
  (issubset required_cols cols = true <->
   In "Date" cols /\ In "Description" cols /\ In "Amount" cols) /\
  (incl cols cols' ->
   issubset required_cols cols = true -> issubset required_cols cols' = true) /\
  (Permutation cols cols' ->
   issubset required_cols cols = issubset required_cols cols') /\
  issubset required_cols ["date"; "description"; "amount"] = false.
Proof.
  assert (Hiff : forall l, issubset required_cols l = true <->
                           In "Date" l /\ In "Description" l /\ In "Amount" l).
  { intros l. unfold issubset, required_cols. cbn [forallb].
    rewrite !andb_true_iff, !existsb_eqb_In. tauto. }
  assert (Hincl : forall l l', incl l l' ->
                    issubset required_cols l = true ->
                    issubset required_cols l' = true).
  { intros l l' H. rewrite !Hiff. intros [H1 [H2 H3]].
    repeat split; now apply H. }
  split; [apply Hiff|]. split; [apply Hincl|]. split; [|reflexivity].
  intros P.
  destruct (issubset required_cols cols) eqn:E.
  - symmetry. apply (Hincl cols cols'); [|exact E].
    intros c Hc. now apply (Permutation_in c P).
  - destruct (issubset required_cols cols') eqn:E'; [|reflexivity].
    rewrite <- E. apply (Hincl cols' cols); [|exact E'].
    intros c Hc. now apply (Permutation_in c (Permutation_sym P)).
Qed.

Lemma column_check_by_names_witness :
  incl ["Date"; "Description"; "Amount"] ["Balance"; "Amount"; "Description"; "Date"] /\
  issubset required_cols ["Balance"; "Amount"; "Description"; "Date"] = true.
Proof.
  assert (H : incl ["Date"; "Description"; "Amount"]
                ["Balance"; "Amount"; "Description"; "Date"]).
  { intros c Hc. cbn [In] in *. tauto. }
  pose proof (column_check_by_names ["Date"; "Description"; "Amount"]
                ["Balance"; "Amount"; "Description"; "Date"]) as P.
  exact (conj H (proj1 (proj2 P) H eq_refl)).
Defined.



(** * The statements in machine arithmetic *)

(** ** int64 *)

Lemma wrap_in_int64 (z : Z) : Machine.in_int64 (Machine.wrap z).
Proof.
  unfold Machine.in_int64, Machine.wrap.
  pose proof (Z.mod_pos_bound (z + 2 ^ 63) (2 ^ 64) eq_refl). lia.
Qed.

Lemma wrap_exact (z : Z) : Machine.in_int64 z -> Machine.wrap z = z.
Proof.
  unfold Machine.in_int64, Machine.wrap. intros H.
  rewrite Z.mod_small; lia.
Qed.

Lemma wrap_add_l (a b : Z) :
  Machine.wrap (Machine.wrap a + b) = Machine.wrap (a + b).
Proof.
  unfold Machine.wrap. f_equal.
  replace ((a + 2 ^ 63) mod 2 ^ 64 - 2 ^ 63 + b + 2 ^ 63)%Z
    with ((a + 2 ^ 63) mod 2 ^ 64 + b)%Z by lia.
  rewrite Zplus_mod_idemp_l. f_equal. lia.
Qed.

Lemma wrap_add_r (a b : Z) :
  Machine.wrap (a + Machine.wrap b) = Machine.wrap (a + b).
Proof. rewrite Z.add_comm, wrap_add_l. f_equal. lia. Qed.



Lemma int64_fold_sum (l : list Z) (a : Z) :
  Machine.in_int64 a ->
  fold_left (fun acc z => Machine.wrap (acc + z)) l a
  = Machine.wrap (a + Machine.Zsum l).
Proof.
  revert a. induction l as [|z l IH]; intros a Ha.
  - cbn. rewrite Z.add_0_r. symmetry. now apply wrap_exact.
  - change (Machine.Zsum (z :: l)) with (z + Machine.Zsum l)%Z.
    cbn [fold_left]. rewrite IH by apply wrap_in_int64.
    rewrite wrap_add_l. f_equal. lia.
Qed.

(** On int64 [Series.sum()] is the exact sum, wrapped. *)
Lemma int64_Series_sum (l : list Z) :
  Machine.Series_sum Machine.int64 l = Machine.wrap (Machine.Zsum l).
Proof.
  cbn [Machine.Series_sum Machine.int64]. rewrite int64_fold_sum.
  - reflexivity.
  - unfold Machine.in_int64. lia.
Qed.

Lemma Zsum_app (l l' : list Z) :
  Machine.Zsum (l ++ l') = (Machine.Zsum l + Machine.Zsum l')%Z.
Proof.
  induction l as [|z l IH]; [reflexivity|].
  change (Machine.Zsum ((z :: l) ++ l')) with (z + Machine.Zsum (l ++ l'))%Z.
  change (Machine.Zsum (z :: l)) with (z + Machine.Zsum l)%Z. lia.
Qed.

Lemma Zsum_Permutation (l l' : list Z) :
  Permutation l l' -> Machine.Zsum l = Machine.Zsum l'.
Proof.
  unfold Machine.Zsum.
  induction 1 as [|a l l' _ IH|a b l|l l' l'' _ IH1 _ IH2];
    cbn [fold_right]; lia.
Qed.

(** ** The categorizer over any dtype *)

(** The label depends on the amount through the test [amount > 0] only: it is
    the label the categorizer gives to 1 or to 0. *)
Lemma machine_categorize (D : Machine.dtype) (description : cell)
  (amount : Machine.num D) :
  Machine.categorize D description amount
  = categorize description (if Machine.gt_zero D amount then 1 else 0).
Proof.
  unfold Machine.categorize, categorize.
  destruct (Machine.gt_zero D amount); reflexivity.
Qed.

Lemma machine_label (D : Machine.dtype) (rs : list (Machine.Row D))
  (t : Machine.Txn D) :
  In t (Machine.apply_categorize D rs) -> In (Machine.Category t) categories.
Proof.
  unfold Machine.apply_categorize. rewrite in_map_iff. intros [r [<- _]].
  cbn [Machine.Category]. rewrite machine_categorize.
  apply categorize_in_categories.
Qed.

Lemma machine_label_kind (D : Machine.dtype) (t : Machine.Txn D) :
  In (Machine.Category t) categories ->
  (Machine.is_sales t = true /\ Machine.is_expense t = false
   /\ Machine.is_tax t = false) \/
  (Machine.is_sales t = false /\ Machine.is_expense t = true
   /\ Machine.is_tax t = false) \/
  (Machine.is_sales t = false /\ Machine.is_expense t = false
   /\ Machine.is_tax t = true).
Proof.
  unfold Machine.is_sales, Machine.is_expense, Machine.is_tax, categories.
  intros H. cbn [In] in H.
  repeat destruct H as [H|H]; try contradiction; rewrite <- H;
    first [ left; now vm_compute
          | right; left; now vm_compute
          | right; right; now vm_compute ].
Qed.

Lemma machine_sales_positive (D : Machine.dtype) (rs : list (Machine.Row D))
  (t : Machine.Txn D) :
  In t (Machine.apply_categorize D rs) ->
  Machine.Category t = "Sales Income" ->
  Machine.gt_zero D (Machine.Amount (Machine.txn_row t)) = true.
Proof.
  unfold Machine.apply_categorize. rewrite in_map_iff. intros [r [<- _]] E.
  cbn [Machine.Category Machine.txn_row] in *. unfold Machine.categorize in E.
  repeat match type of E with
    | (if ?b then _ else _) = _ => destruct b eqn:?; try discriminate
    end.
  reflexivity.
Qed.

(** ** Selections *)

Section MachineSelection.
Variable D : Machine.dtype.



Lemma machine_filter_within (p q : Machine.Txn D -> bool)
  (df : list (Machine.Txn D)) :
  (forall t, p t = true -> q t = true) ->
  filter p (filter q df) = filter p df.
Proof.
  intros H. induction df as [|t df IH]; [reflexivity|].
  cbn [filter]. destruct (q t) eqn:Hq.
  - cbn [filter]. now rewrite IH.
  - destruct (p t) eqn:Hp; [|exact IH].
    apply H in Hp. congruence.
Qed.

Lemma machine_is_sales_iff (t : Machine.Txn D) :
  Machine.is_sales t = true <-> Machine.Category t = "Sales Income".
Proof. apply String.eqb_eq. Qed.

Lemma machine_is_expense_iff (t : Machine.Txn D) :
  Machine.is_expense t = true <-> Substring "Expense" (Machine.Category t).
Proof. apply contains_Substring. Qed.

Lemma machine_sales_not_tax (t : Machine.Txn D) :
  Machine.is_sales t = true -> negb (Machine.is_tax t) = true.
Proof.
  unfold Machine.is_sales, Machine.is_tax. intros H.
  apply String.eqb_eq in H. now rewrite H.
Qed.

Lemma machine_expense_not_tax (t : Machine.Txn D) :
  Machine.is_expense t = true -> negb (Machine.is_tax t) = true.
Proof.
  unfold Machine.is_expense, Machine.is_tax. intros H.
  destruct (Machine.Category t =? "Tax")%string eqn:E; [|reflexivity].
  apply String.eqb_eq in E. rewrite E in H. discriminate.
Qed.

End MachineSelection.

(** ** The statements (lines 48-60) *)

Section MachineStatements.
Variable D : Machine.dtype.



End MachineStatements.




(** ** Categories and the statements *)

Lemma Zsum_cons (z : Z) (l : list Z) :
  Machine.Zsum (z :: l) = (z + Machine.Zsum l)%Z.
Proof. reflexivity. Qed.

Lemma machine_none_selected (D : Machine.dtype) (p : Machine.Txn D -> bool)
  (df : list (Machine.Txn D)) :
  (forall t, In t df -> p t = false) -> filter p df = [].
Proof.
  intros H. induction df as [|t df IH]; [reflexivity|].
  cbn [filter]. rewrite (H t (or_introl eq_refl)).
  apply IH. intros u Hu. apply H. now right.
Qed.

(** The exact sum of all the amounts, split by kind of label. *)
Lemma int64_amounts_by_kind (df : list (Machine.Txn Machine.int64)) :
  (forall t, In t df -> In (Machine.Category t) categories) ->
  Machine.Zsum (Machine.amounts Machine.int64 df)
  = (Machine.Zsum (Machine.amounts Machine.int64 (filter Machine.is_sales df))
     + Machine.Zsum (Machine.amounts Machine.int64 (filter Machine.is_expense df))
     + Machine.Zsum (Machine.amounts Machine.int64 (filter Machine.is_tax df)))%Z.
Proof.
  induction df as [|t df IH]; intros H; [reflexivity|].
  assert (IH' := IH (fun u Hu => H u (or_intror Hu))).
  cbn [filter Machine.amounts map]. fold (Machine.amounts Machine.int64 df).
  rewrite Zsum_cons, IH'.
  destruct (machine_label_kind _ t (H t (or_introl eq_refl)))
    as [[Hs [He Ht]] | [[Hs [He Ht]] | [Hs [He Ht]]]];
    rewrite Hs, He, Ht; cbn [map]; rewrite ?Zsum_cons;
    fold (Machine.amounts Machine.int64 (filter Machine.is_sales df));
    fold (Machine.amounts Machine.int64 (filter Machine.is_expense df));
    fold (Machine.amounts Machine.int64 (filter Machine.is_tax df)); lia.
Qed.

Lemma int64_income (df : list (Machine.Txn Machine.int64)) :
  Machine.income Machine.int64 df
  = Machine.wrap
      (Machine.Zsum (Machine.amounts Machine.int64 (filter Machine.is_sales df))).
Proof. apply int64_Series_sum. Qed.

Lemma int64_expenses (df : list (Machine.Txn Machine.int64)) :
  Machine.expenses Machine.int64 df
  = Machine.wrap
      (Machine.Zsum (Machine.amounts Machine.int64 (filter Machine.is_expense df))).
Proof. apply int64_Series_sum. Qed.

Lemma int64_total_assets (df : list (Machine.Txn Machine.int64)) :
  Machine.total_assets Machine.int64 df
  = Machine.wrap (Machine.Zsum (Machine.amounts Machine.int64 df)).
Proof. apply int64_Series_sum. Qed.

Lemma int64_net_profit (df : list (Machine.Txn Machine.int64)) :
  Machine.net_profit Machine.int64 df
  = Machine.wrap
      (Machine.Zsum (Machine.amounts Machine.int64 (filter Machine.is_sales df))
       + Machine.Zsum (Machine.amounts Machine.int64 (filter Machine.is_expense df))).
Proof.
  unfold Machine.net_profit. rewrite int64_income, int64_expenses.
  cbn [Machine.plus Machine.int64]. now rewrite wrap_add_l, wrap_add_r.
Qed.

Lemma int64_assets_without_tax (rs : list (Machine.Row Machine.int64)) :
  (forall t, In t (Machine.apply_categorize Machine.int64 rs) ->
             Machine.Category t <> "Tax") ->
  Machine.total_assets Machine.int64 (Machine.apply_categorize Machine.int64 rs)
  = Machine.net_profit Machine.int64 (Machine.apply_categorize Machine.int64 rs).
Proof.
  intros Hno. rewrite int64_total_assets, int64_net_profit.
  rewrite int64_amounts_by_kind by (intros t; apply machine_label).
  rewrite (machine_none_selected _ Machine.is_tax).
  - cbn [Machine.amounts map]. change (Machine.Zsum []) with 0%Z.
    now rewrite Z.add_0_r.
  - intros t Hin. apply not_true_iff_false. intros Ht.
    apply String.eqb_eq in Ht. exact (Hno t Hin Ht).
Qed.

(** C9.  On the table the categorizer produced, whatever the dtype: a label
    other than Tax is Sales Income or contains "Expense"; a Tax line is in
    neither selection while its amount is among those summed for total assets;
    dropping the Tax lines changes none of income, expenses and total
    liabilities.  On an int64 column total assets is net profit plus the sum of
    the Tax amounts, and equals net profit when no line is a Tax. *)
Theorem tax_lines_and_total_assets :
  (forall (D : Machine.dtype) (rs : list (Machine.Row D)),
     let df := Machine.apply_categorize D rs in
     let untaxed := filter (fun t => negb (Machine.is_tax t)) df in
     (forall t, In t df -> Machine.Category t <> "Tax" ->
                Machine.Category t = "Sales Income"
                \/ Substring "Expense" (Machine.Category t)) /\
     (forall t, In t df -> Machine.Category t = "Tax" ->
                ~ In t (filter Machine.is_sales df) /\
                ~ In t (filter Machine.is_expense df) /\
                In (Machine.Amount (Machine.txn_row t)) (Machine.amounts D df)) /\
     filter Machine.is_sales untaxed = filter Machine.is_sales df /\
     filter Machine.is_expense untaxed = filter Machine.is_expense df /\
     Machine.income D untaxed = Machine.income D df /\
     Machine.expenses D untaxed = Machine.expenses D df /\
     Machine.total_liabilities D untaxed = Machine.total_liabilities D df)
  /\
  (forall rs : list (Machine.Row Machine.int64),
     let df := Machine.apply_categorize Machine.int64 rs in
     let of_kind p := Machine.Zsum (Machine.amounts Machine.int64 (filter p df)) in
     Machine.total_assets Machine.int64 df
     = Machine.wrap (of_kind Machine.is_sales + of_kind Machine.is_expense
                     + of_kind Machine.is_tax) /\
     Machine.net_profit Machine.int64 df
     = Machine.wrap (of_kind Machine.is_sales + of_kind Machine.is_expense) /\
     Machine.total_assets Machine.int64 df
     = Machine.wrap (Machine.net_profit Machine.int64 df + of_kind Machine.is_tax) /\
     ((forall t, In t df -> Machine.Category t <> "Tax") ->
      Machine.total_assets Machine.int64 df = Machine.net_profit Machine.int64 df /\
      Machine.Series_sum Machine.int64 (Machine.amounts Machine.int64 df)
      = Machine.plus Machine.int64 (Machine.income Machine.int64 df)
          (Machine.expenses Machine.int64 df))).
Proof.
  split.
  - intros D rs df untaxed.
    assert (Hlab : forall t, In t df -> In (Machine.Category t) categories)
      by (intros t; apply machine_label).
    assert (Hs : filter Machine.is_sales untaxed = filter Machine.is_sales df)
      by (apply machine_filter_within, machine_sales_not_tax).
    assert (He : filter Machine.is_expense untaxed = filter Machine.is_expense df)
      by (apply machine_filter_within, machine_expense_not_tax).
    split; [|split; [|split; [|split; [|split; [|split]]]]].
    + intros t Hin Hno.
      destruct (machine_label_kind _ t (Hlab t Hin))
        as [[H _] | [[_ [H _]] | [_ [_ H]]]].
      * left. now apply machine_is_sales_iff.
      * right. now apply machine_is_expense_iff.
      * apply String.eqb_eq in H. contradiction.
    + intros t Hin Htax.
      assert (Ht : Machine.is_tax t = true) by now apply String.eqb_eq.
      destruct (machine_label_kind _ t (Hlab t Hin))
        as [[_ [_ H]] | [[_ [_ H]] | [H [H' _]]]]; try congruence.
      split; [|split].
      * intros F. apply filter_In in F. destruct F as [_ F]. congruence.
      * intros F. apply filter_In in F. destruct F as [_ F]. congruence.
      * unfold Machine.amounts. apply in_map_iff. now exists t.
    + exact Hs.
    + exact He.
    + unfold Machine.income. now rewrite Hs.
    + unfold Machine.expenses. now rewrite He.
    + unfold Machine.total_liabilities. now rewrite He.
  - intros rs df of_kind.
    assert (Hlab : forall t, In t df -> In (Machine.Category t) categories)
      by (intros t; apply machine_label).
    assert (Ha : Machine.total_assets Machine.int64 df
                 = Machine.wrap (of_kind Machine.is_sales
                                 + of_kind Machine.is_expense
                                 + of_kind Machine.is_tax)).
    { rewrite int64_total_assets. f_equal. now apply int64_amounts_by_kind. }
    assert (Hn : Machine.net_profit Machine.int64 df
                 = Machine.wrap (of_kind Machine.is_sales
                                 + of_kind Machine.is_expense))
      by apply int64_net_profit.
    split; [exact Ha|]. split; [exact Hn|]. split.
    + rewrite Ha, Hn. now rewrite wrap_add_l.
    + intros Hno.
      assert (E : filter Machine.is_tax df = []).
      { apply machine_none_selected. intros t Hin.
        apply not_true_iff_false. intros Ht. apply String.eqb_eq in Ht.
        exact (Hno t Hin Ht). }
      assert (G : Machine.total_assets Machine.int64 df
                  = Machine.net_profit Machine.int64 df).
      { rewrite Ha, Hn. unfold of_kind at 3. rewrite E.
        cbn [Machine.amounts map]. change (Machine.Zsum []) with 0%Z.
        now rewrite Z.add_0_r. }
      split; exact G.
Qed.

Lemma tax_lines_and_total_assets_witness :
  (forall t, In t (Machine.apply_categorize Machine.int64 Machine.scenario_rows) ->
             Machine.Category t <> "Tax") /\
  Machine.total_assets Machine.int64
    (Machine.apply_categorize Machine.int64 Machine.scenario_rows)
  = Machine.net_profit Machine.int64
      (Machine.apply_categorize Machine.int64 Machine.scenario_rows).
Proof.
  assert (Hno : forall t,
             In t (Machine.apply_categorize Machine.int64 Machine.scenario_rows) ->
             Machine.Category t <> "Tax").
  { intros t Hin. cbn in Hin.
    repeat destruct Hin as [Hin|Hin]; try contradiction; subst t; discriminate. }
  pose proof (proj2 tax_lines_and_total_assets Machine.scenario_rows) as H.
  cbv zeta in H. destruct H as [_ [_ [_ G]]].
  exact (conj Hno (proj1 (G Hno))).
Defined.

(** Decimal amounts 0.1, -0.3 and 0.2 without any keyword: no line is a Tax,
    total assets is 0.1 - 0.3 + 0.2 and net profit (0.1 + 0.2) - 0.3 in
    float64, and the two differ. *)
Lemma decimal_assets_differ_from_net_profit :
  map Machine.Category (Machine.apply_categorize Machine.float64 Machine.decimal_rows)
  = ["Sales Income"; "Other Expense"; "Sales Income"] /\
  Machine.float_eqb
    (Machine.total_assets Machine.float64
       (Machine.apply_categorize Machine.float64 Machine.decimal_rows))
    (Machine.net_profit Machine.float64
       (Machine.apply_categorize Machine.float64 Machine.decimal_rows))
  = false /\
  PrimFloat.ltb
    (Machine.total_assets Machine.float64
       (Machine.apply_categorize Machine.float64 Machine.decimal_rows))
    (Machine.net_profit Machine.float64
       (Machine.apply_categorize Machine.float64 Machine.decimal_rows))
  = true.
Proof. repeat split; vm_compute; reflexivity. Qed.

(** ** Keywords before the sign *)

Lemma machine_expense_keyword_label (D : Machine.dtype) (description : cell)
  (amount : Machine.num D) :
  (exists k, In k expense_keywords /\ Substring k (lower (str description))) ->
  In (Machine.categorize D description amount)
     ["Fuel Expense"; "Payroll Expense"; "Rent Expense"].
Proof. rewrite machine_categorize. apply expense_keyword_label. Qed.

Lemma machine_expense_label (D : Machine.dtype) (row : Machine.Row D)
  (label : string) :
  In label ["Fuel Expense"; "Payroll Expense"; "Rent Expense"] ->
  Machine.is_expense (Machine.mkTxn row label) = true
  /\ Machine.is_sales (Machine.mkTxn row label) = false.
Proof.
  intros H. simpl in H.
  repeat destruct H as [H|H]; try contradiction; subst label; now vm_compute.
Qed.

(** C10.  The keyword rules come before the test [amount > 0]: a line whose
    amount is positive and whose description has an expense keyword gets a
    label that contains "Expense" (Rent Expense for "rent", unless an earlier
    rule takes it), never Sales Income; its amount is among those summed for
    expenses and, under [abs], for total liabilities, and not among those
    summed for income.  So on an int64 column a statement made of one such
    line has positive expenses, equal to the amount. *)
Theorem keyword_overrides_sign_of_amount :
  (forall (D : Machine.dtype) (on : option date) (description : cell)
     (amount : Machine.num D) (rs : list (Machine.Row D)),
     (exists k, In k expense_keywords /\ Substring k (lower (str description))) ->
     Machine.gt_zero D amount = true ->
     let label := Machine.categorize D description amount in
     let row := Machine.mkRow on description amount in
     let df := Machine.apply_categorize D (row :: rs) in
     let rest := Machine.apply_categorize D rs in
     Substring "Expense" label /\
     label <> "Sales Income" /\
     (Substring "rent" (lower (str description)) ->
      ~ (Substring "shell" (lower (str description))
         \/ Substring "fuel" (lower (str description))) ->
      ~ (Substring "salary" (lower (str description))
         \/ Substring "payroll" (lower (str description))) ->
      label = "Rent Expense") /\
     (exists t, In t df /\ Machine.is_expense t = true
                /\ Machine.gt_zero D (Machine.Amount (Machine.txn_row t)) = true) /\
     Machine.amounts D (filter Machine.is_expense df)
     = amount :: Machine.amounts D (filter Machine.is_expense rest) /\
     Machine.expenses D df
     = Machine.Series_sum D
         (amount :: Machine.amounts D (filter Machine.is_expense rest)) /\
     Machine.total_liabilities D df
     = Machine.absolute D
         (Machine.Series_sum D
            (amount :: Machine.amounts D (filter Machine.is_expense rest))) /\
     Machine.amounts D (filter Machine.is_sales df)
     = Machine.amounts D (filter Machine.is_sales rest) /\
     Machine.income D df = Machine.income D rest)
  /\
  (forall (on : option date) (description : cell) (amount : Z),
     (exists k, In k expense_keywords /\ Substring k (lower (str description))) ->
     (0 < amount)%Z -> Machine.in_int64 amount ->
     let df := Machine.apply_categorize Machine.int64
                 [Machine.mkRow (D:=Machine.int64) on description amount] in
     Machine.expenses Machine.int64 df = amount /\
     Machine.total_liabilities Machine.int64 df = amount /\
     Machine.income Machine.int64 df = 0%Z /\
     (0 < Machine.expenses Machine.int64 df)%Z).
Proof.
  assert (G : forall (D : Machine.dtype) (on : option date) (description : cell)
     (amount : Machine.num D) (rs : list (Machine.Row D)),
     (exists k, In k expense_keywords /\ Substring k (lower (str description))) ->
     Machine.is_expense
       (Machine.mkTxn (Machine.mkRow on description amount)
          (Machine.categorize D description amount)) = true /\
     Machine.is_sales
       (Machine.mkTxn (Machine.mkRow on description amount)
          (Machine.categorize D description amount)) = false /\
     Machine.amounts D
       (filter Machine.is_expense
          (Machine.apply_categorize D (Machine.mkRow on description amount :: rs)))
     = amount :: Machine.amounts D
                   (filter Machine.is_expense (Machine.apply_categorize D rs)) /\
     Machine.amounts D
       (filter Machine.is_sales
          (Machine.apply_categorize D (Machine.mkRow on description amount :: rs)))
     = Machine.amounts D (filter Machine.is_sales (Machine.apply_categorize D rs))).
  { intros D on description amount rs Hkey.
    destruct (machine_expense_label D (Machine.mkRow on description amount) _
                (machine_expense_keyword_label D description amount Hkey))
      as [He Hs].
    split; [exact He|]. split; [exact Hs|].
    cbn [Machine.apply_categorize map filter].
    fold (Machine.apply_categorize D rs).
    cbn [Machine.Description Machine.Amount].
    rewrite He, Hs. split; reflexivity. }
  split.
  - intros D on description amount rs Hkey Hpos label row df rest.
    destruct (G D on description amount rs Hkey) as [He [Hs [Ee Es]]].
    fold label row in He, Hs. fold row df rest in Ee, Es.
    split; [|split; [|split; [|split; [|split; [|split; [|split; [|split]]]]]]].
    + now apply (machine_is_expense_iff D (Machine.mkTxn row label)).
    + intros E. unfold Machine.is_sales in Hs. cbn [Machine.Category] in Hs.
      rewrite E in Hs. discriminate.
    + intros Hrent Hfuel Hpayroll. unfold label. rewrite machine_categorize.
      now apply categorize_rent.
    + exists (Machine.mkTxn row label). split; [left; reflexivity|].
      split; [exact He | exact Hpos].
    + exact Ee.
    + unfold Machine.expenses. now rewrite Ee.
    + unfold Machine.total_liabilities. now rewrite Ee.
    + exact Es.
    + unfold Machine.income. now rewrite Es.
  - intros on description amount Hkey Hpos Hrange df.
    destruct (G Machine.int64 on description amount [] Hkey) as [_ [_ [Ee Es]]].
    fold df in Ee, Es.
    change (Machine.apply_categorize Machine.int64 [])
      with (@nil (Machine.Txn Machine.int64)) in Ee, Es.
    cbn [filter Machine.amounts map] in Ee, Es.
    fold (Machine.amounts Machine.int64 (filter Machine.is_expense df)) in Ee.
    fold (Machine.amounts Machine.int64 (filter Machine.is_sales df)) in Es.
    assert (He : Machine.expenses Machine.int64 df = amount).
    { rewrite int64_expenses, Ee, Zsum_cons.
      change (Machine.Zsum []) with 0%Z. rewrite Z.add_0_r.
      now apply wrap_exact. }
    split; [exact He|]. split; [|split].
    + unfold Machine.total_liabilities. fold (Machine.expenses Machine.int64 df).
      rewrite He. cbn [Machine.absolute Machine.int64].
      rewrite Z.abs_eq by lia. now apply wrap_exact.
    + rewrite int64_income, Es. reflexivity.
    + rewrite He. exact Hpos.
Qed.

Lemma keyword_overrides_sign_of_amount_witness :
  (exists k, In k expense_keywords
             /\ Substring k (lower (str (Text "Office Rent")))) /\
  Machine.gt_zero Machine.int64 300%Z = true /\
  Machine.categorize Machine.int64 (Text "Office Rent") 300%Z = "Rent Expense" /\
  Substring "Expense" (Machine.categorize Machine.int64 (Text "Office Rent") 300%Z) /\
  Machine.expenses Machine.int64
    (Machine.apply_categorize Machine.int64 [Machine.rent_refund]) = 300%Z.
Proof.
  assert (H1 : exists k, In k expense_keywords
                         /\ Substring k (lower (str (Text "Office Rent")))).
  { exists "rent". split; [cbn; tauto | apply contains_Substring; reflexivity]. }
  assert (H2 : Machine.gt_zero Machine.int64 300%Z = true) by reflexivity.
  assert (H3 : Machine.in_int64 300%Z) by (unfold Machine.in_int64; lia).
  destruct (proj1 keyword_overrides_sign_of_amount Machine.int64
              (Some (mkdate 2024 1 3)) (Text "Office Rent") 300%Z [] H1 H2)
    as [E _].
  destruct (proj2 keyword_overrides_sign_of_amount
              (Some (mkdate 2024 1 3)) (Text "Office Rent") 300%Z H1 eq_refl H3)
    as [P _].
  exact (conj H1 (conj H2 (conj eq_refl (conj E P)))).
Defined.

(** * Further properties in machine arithmetic *)

(** ** Reordering and concatenation *)

Section MachineLists.
Variable D : Machine.dtype.

Lemma machine_filter_Permutation (p : Machine.Txn D -> bool)
  (df df' : list (Machine.Txn D)) :
  Permutation df df' -> Permutation (filter p df) (filter p df').
Proof.
  induction 1 as [|t df df' _ IH|t u df|df df' df'' _ IH1 _ IH2].
  - constructor.
  - cbn [filter]. destruct (p t); [now constructor | exact IH].
  - cbn [filter]. destruct (p t), (p u); try apply Permutation_refl.
    apply perm_swap.
  - now apply Permutation_trans with (filter p df').
Qed.

Lemma machine_amounts_app (df df' : list (Machine.Txn D)) :
  Machine.amounts D (df ++ df')
  = (Machine.amounts D df ++ Machine.amounts D df')%list.
Proof. apply map_app. Qed.

Lemma machine_apply_categorize_app (rs rs' : list (Machine.Row D)) :
  Machine.apply_categorize D (rs ++ rs')
  = (Machine.apply_categorize D rs ++ Machine.apply_categorize D rs')%list.
Proof. apply map_app. Qed.

End MachineLists.

Lemma int64_selected_Permutation (p : Machine.Txn Machine.int64 -> bool)
  (df df' : list (Machine.Txn Machine.int64)) :
  Permutation df df' ->
  Machine.Zsum (Machine.amounts Machine.int64 (filter p df))
  = Machine.Zsum (Machine.amounts Machine.int64 (filter p df')).
Proof.
  intros H. apply Zsum_Permutation. unfold Machine.amounts.
  apply Permutation_map. now apply machine_filter_Permutation.
Qed.

Lemma int64_selected_app (p : Machine.Txn Machine.int64 -> bool)
  (df df' : list (Machine.Txn Machine.int64)) :
  Machine.Zsum (Machine.amounts Machine.int64 (filter p (df ++ df')))
  = (Machine.Zsum (Machine.amounts Machine.int64 (filter p df))
     + Machine.Zsum (Machine.amounts Machine.int64 (filter p df')))%Z.
Proof. now rewrite filter_app, machine_amounts_app, Zsum_app. Qed.

Lemma int64_total_liabilities (df : list (Machine.Txn Machine.int64)) :
  Machine.total_liabilities Machine.int64 df
  = Machine.wrap (Z.abs (Machine.expenses Machine.int64 df)).
Proof. reflexivity. Qed.

Lemma int64_equity (df : list (Machine.Txn Machine.int64)) :
  Machine.equity Machine.int64 df
  = Machine.wrap (Machine.total_assets Machine.int64 df
                  - Machine.total_liabilities Machine.int64 df).
Proof. reflexivity. Qed.

(** X1.  On an int64 column the order of the lines of the statement changes
    no figure: two tables with the same lines in any order have the same
    income, expenses, net profit, total assets, total liabilities and equity.
    On a float64 column the order matters: the lines 0.1, -0.3, 0.2 and the
    lines 0.1, 0.2, -0.3 have different total assets. *)
Theorem statement_order_by_dtype :
  (forall rs rs' : list (Machine.Row Machine.int64),
     Permutation rs rs' ->
     let df := Machine.apply_categorize Machine.int64 rs in
     let df' := Machine.apply_categorize Machine.int64 rs' in
     Machine.income Machine.int64 df = Machine.income Machine.int64 df' /\
     Machine.expenses Machine.int64 df = Machine.expenses Machine.int64 df' /\
     Machine.net_profit Machine.int64 df = Machine.net_profit Machine.int64 df' /\
     Machine.total_assets Machine.int64 df = Machine.total_assets Machine.int64 df' /\
     Machine.total_liabilities Machine.int64 df
     = Machine.total_liabilities Machine.int64 df' /\
     Machine.equity Machine.int64 df = Machine.equity Machine.int64 df')
  /\
  (Permutation Machine.decimal_rows Machine.decimal_rows_sales_first /\
   Machine.float_eqb
     (Machine.total_assets Machine.float64
        (Machine.apply_categorize Machine.float64 Machine.decimal_rows))
     (Machine.total_assets Machine.float64
        (Machine.apply_categorize Machine.float64 Machine.decimal_rows_sales_first))
   = false).
Proof.
  split.
  - intros rs rs' H df df'.
    assert (P : Permutation df df') by now apply Permutation_map.
    assert (Hi : Machine.income Machine.int64 df = Machine.income Machine.int64 df')
      by (rewrite !int64_income; f_equal; now apply int64_selected_Permutation).
    assert (He : Machine.expenses Machine.int64 df
                 = Machine.expenses Machine.int64 df')
      by (rewrite !int64_expenses; f_equal; now apply int64_selected_Permutation).
    assert (Ha : Machine.total_assets Machine.int64 df
                 = Machine.total_assets Machine.int64 df').
    { rewrite !int64_total_assets. f_equal. apply Zsum_Permutation.
      now apply Permutation_map. }
    assert (Hl : Machine.total_liabilities Machine.int64 df
                 = Machine.total_liabilities Machine.int64 df')
      by (rewrite !int64_total_liabilities; now rewrite He).
    split; [exact Hi|]. split; [exact He|]. split; [|split; [exact Ha|split]].
    + unfold Machine.net_profit. now rewrite Hi, He.
    + exact Hl.
    + rewrite !int64_equity. now rewrite Ha, Hl.
  - split.
    + unfold Machine.decimal_rows, Machine.decimal_rows_sales_first.
      apply perm_skip. apply perm_swap.
    + vm_compute. reflexivity.
Qed.

Lemma statement_order_by_dtype_witness :
  Permutation Machine.scenario_rows (rev Machine.scenario_rows) /\
  Machine.equity Machine.int64
    (Machine.apply_categorize Machine.int64 Machine.scenario_rows)
  = Machine.equity Machine.int64
      (Machine.apply_categorize Machine.int64 (rev Machine.scenario_rows)).
Proof.
  assert (H : Permutation Machine.scenario_rows (rev Machine.scenario_rows))
    by apply Permutation_rev.
  pose proof (proj1 statement_order_by_dtype Machine.scenario_rows
                (rev Machine.scenario_rows) H) as P.
  cbv zeta in P.
  exact (conj H (proj2 (proj2 (proj2 (proj2 (proj2 P)))))).
Defined.

(** X2.  Two statements put one after the other, on an int64 column: income,
    expenses, net profit and total assets of the whole are the int64 sums of
    those of the parts. *)
Theorem statement_of_concatenation_int64 (rs rs' : list (Machine.Row Machine.int64)) :
  let whole := Machine.apply_categorize Machine.int64 (rs ++ rs') in
  let df := Machine.apply_categorize Machine.int64 rs in
  let df' := Machine.apply_categorize Machine.int64 rs' in
  Machine.income Machine.int64 whole
  = Machine.plus Machine.int64 (Machine.income Machine.int64 df)
      (Machine.income Machine.int64 df') /\
  Machine.expenses Machine.int64 whole
  = Machine.plus Machine.int64 (Machine.expenses Machine.int64 df)
      (Machine.expenses Machine.int64 df') /\
  Machine.net_profit Machine.int64 whole
  = Machine.plus Machine.int64 (Machine.net_profit Machine.int64 df)
      (Machine.net_profit Machine.int64 df') /\
  Machine.total_assets Machine.int64 whole
  = Machine.plus Machine.int64 (Machine.total_assets Machine.int64 df)
      (Machine.total_assets Machine.int64 df').
Proof.
  intros whole df df'. subst whole. rewrite machine_apply_categorize_app.
  fold df df'. cbn [Machine.plus Machine.int64].
  rewrite !int64_net_profit, !int64_income, !int64_expenses, !int64_total_assets.
  rewrite !int64_selected_app, machine_amounts_app, Zsum_app.
  rewrite !wrap_add_l, !wrap_add_r.
  repeat split; f_equal; lia.
Qed.

(** X3.  On an int64 column total liabilities is never negative except when
    the expenses sum is -2^63, where it is -2^63 too.  When the expenses sum
    is not positive (and not -2^63), liabilities is its opposite and equity
    is total assets plus expenses in int64; on a table without Tax lines
    equity is then income plus twice the expenses. *)
Theorem equity_counts_expenses_twice_int64 (rs : list (Machine.Row Machine.int64)) :
  let df := Machine.apply_categorize Machine.int64 rs in
  let income := Machine.income Machine.int64 df in
  let expenses := Machine.expenses Machine.int64 df in
  let total_assets := Machine.total_assets Machine.int64 df in
  let total_liabilities := Machine.total_liabilities Machine.int64 df in
  let equity := Machine.equity Machine.int64 df in
  ((0 <= total_liabilities)%Z
   \/ (expenses = - 2 ^ 63 /\ total_liabilities = - 2 ^ 63)%Z) /\
  ((expenses <= 0)%Z -> expenses <> (- 2 ^ 63)%Z ->
   total_liabilities = (- expenses)%Z /\
   equity = Machine.wrap (total_assets + expenses) /\
   ((forall t, In t df -> Machine.Category t <> "Tax") ->
    equity = Machine.wrap (income + 2 * expenses))).
Proof.
  intros df income expenses total_assets total_liabilities equity.
  assert (Rx : Machine.in_int64 expenses)
    by (unfold expenses; rewrite int64_expenses; apply wrap_in_int64).
  assert (Hl : total_liabilities = Machine.wrap (Z.abs expenses))
    by apply int64_total_liabilities.
  split.
  - destruct (Z.eq_dec expenses (- 2 ^ 63)) as [E|E].
    + right. split; [exact E|]. rewrite Hl, E. reflexivity.
    + left. rewrite Hl, wrap_exact; [lia|].
      unfold Machine.in_int64 in *. lia.
  - intros Hneg Hmin.
    assert (E : total_liabilities = (- expenses)%Z).
    { rewrite Hl, wrap_exact; [lia|]. unfold Machine.in_int64 in *. lia. }
    assert (Hq : equity = Machine.wrap (total_assets + expenses)).
    { unfold equity. rewrite int64_equity. fold total_assets total_liabilities.
      rewrite E. f_equal. lia. }
    split; [exact E|]. split; [exact Hq|].
    intros Hno. rewrite Hq.
    unfold total_assets, df.
    rewrite (int64_assets_without_tax rs Hno). fold df.
    unfold Machine.net_profit. fold income expenses.
    cbn [Machine.plus Machine.int64]. rewrite wrap_add_l. f_equal. lia.
Qed.

Lemma equity_counts_expenses_twice_int64_witness :
  (Machine.expenses Machine.int64
     (Machine.apply_categorize Machine.int64 Machine.sale_and_fuel) <= 0)%Z /\
  (forall t, In t (Machine.apply_categorize Machine.int64 Machine.sale_and_fuel) ->
             Machine.Category t <> "Tax") /\
  Machine.equity Machine.int64
    (Machine.apply_categorize Machine.int64 Machine.sale_and_fuel)
  = Machine.wrap
      (Machine.income Machine.int64
         (Machine.apply_categorize Machine.int64 Machine.sale_and_fuel)
       + 2 * Machine.expenses Machine.int64
               (Machine.apply_categorize Machine.int64 Machine.sale_and_fuel)) /\
  Machine.equity Machine.int64
    (Machine.apply_categorize Machine.int64 Machine.sale_and_fuel) = 900%Z.
Proof.
  assert (He : (Machine.expenses Machine.int64
                  (Machine.apply_categorize Machine.int64 Machine.sale_and_fuel)
                <= 0)%Z) by (vm_compute; discriminate).
  assert (Hm : Machine.expenses Machine.int64
                 (Machine.apply_categorize Machine.int64 Machine.sale_and_fuel)
               <> (- 2 ^ 63)%Z) by (vm_compute; discriminate).
  assert (Hno : forall t,
             In t (Machine.apply_categorize Machine.int64 Machine.sale_and_fuel) ->
             Machine.Category t <> "Tax").
  { intros t Hin. cbn in Hin.
    repeat destruct Hin as [Hin|Hin]; try contradiction; subst t; discriminate. }
  pose proof (equity_counts_expenses_twice_int64 Machine.sale_and_fuel) as P.
  cbv zeta in P. destruct P as [_ P].
  refine (conj He (conj Hno (conj (proj2 (proj2 (P He Hm)) Hno) _))).
  vm_compute. reflexivity.
Defined.

(** ** The sign default *)

(** X4.  The two labels of the sign default are given to exactly the
    descriptions without any keyword: Sales Income when [amount > 0] holds,
    Other Expense when it does not.  On int64 the test holds for the positive
    integers; on float64 it fails for NaN, so a line without keyword whose
    amount cell is empty is an Other Expense. *)
Theorem sign_default_by_dtype :
  (forall (D : Machine.dtype) (description : cell) (amount : Machine.num D),
     (Machine.categorize D description amount = "Sales Income" <->
      Machine.gt_zero D amount = true /\ ~ has_keyword description) /\
     (Machine.categorize D description amount = "Other Expense" <->
      Machine.gt_zero D amount = false /\ ~ has_keyword description)) /\
  (forall amount : Z,
     Machine.gt_zero Machine.int64 amount = true <-> (0 < amount)%Z) /\
  (forall description : cell,
     ~ has_keyword description ->
     Machine.categorize Machine.float64 description PrimFloat.nan
     = "Other Expense").
Proof.
  assert (G : forall (D : Machine.dtype) (description : cell)
                (amount : Machine.num D),
     (Machine.categorize D description amount = "Sales Income" <->
      Machine.gt_zero D amount = true /\ ~ has_keyword description) /\
     (Machine.categorize D description amount = "Other Expense" <->
      Machine.gt_zero D amount = false /\ ~ has_keyword description)).
  { intros D description amount. rewrite machine_categorize.
    destruct (sign_default_by_keyword description
                (if Machine.gt_zero D amount then 1 else 0)) as [S O].
    destruct (Machine.gt_zero D amount).
    - split.
      + rewrite S. split; intros [_ H]; now split.
      + rewrite O. split; intros [H _]; [|discriminate H].
        exfalso. apply H. reflexivity.
    - split.
      + rewrite S. split; intros [H _]; discriminate H.
      + rewrite O. split; intros [_ H]; (split; [|exact H]);
          [reflexivity | discriminate]. }
  split; [exact G|]. split.
  - intros amount. apply Z.ltb_lt.
  - intros description H. apply G. split; [reflexivity | exact H].
Qed.

(** X5.  Every Sales Income line passed the test [amount > 0].  On an int64
    column the exact sum of the Sales Income amounts is therefore never
    negative, and zero exactly when no line is a Sales Income; income is that
    sum, hence not negative, whenever the sum is below 2^63. *)
Theorem income_of_positive_amounts :
  (forall (D : Machine.dtype) (rs : list (Machine.Row D)) (t : Machine.Txn D),
     In t (Machine.apply_categorize D rs) ->
     Machine.Category t = "Sales Income" ->
     Machine.gt_zero D (Machine.Amount (Machine.txn_row t)) = true) /\
  (forall rs : list (Machine.Row Machine.int64),
     let df := Machine.apply_categorize Machine.int64 rs in
     let s := Machine.Zsum (Machine.amounts Machine.int64 (filter Machine.is_sales df)) in
     (0 <= s)%Z /\
     (s = 0%Z <-> forall t, In t df -> Machine.Category t <> "Sales Income") /\
     Machine.income Machine.int64 df = Machine.wrap s /\
     (Machine.in_int64 s ->
      (0 <= Machine.income Machine.int64 df)%Z /\
      (Machine.income Machine.int64 df = 0%Z <->
       forall t, In t df -> Machine.Category t <> "Sales Income"))).
Proof.
  split; [intros D rs t; apply machine_sales_positive|].
  intros rs df s.
  assert (Hpos : forall l : list (Machine.Txn Machine.int64),
             (forall t, In t l -> In t df) ->
             (0 <= Machine.Zsum (Machine.amounts Machine.int64 (filter Machine.is_sales l)))%Z
             /\ (Machine.Zsum (Machine.amounts Machine.int64 (filter Machine.is_sales l)) = 0%Z
                 -> forall t, In t l -> Machine.Category t <> "Sales Income")).
  { induction l as [|t l IH]; intros Hin.
    - split; [cbn; lia | intros _ t []].
    - destruct (IH (fun u Hu => Hin u (or_intror Hu))) as [IH1 IH2].
      cbn [filter]. destruct (Machine.is_sales t) eqn:E.
      + cbn [Machine.amounts map].
        fold (Machine.amounts Machine.int64 (filter Machine.is_sales l)).
        rewrite Zsum_cons.
        assert (P : Machine.gt_zero Machine.int64
                      (Machine.Amount (Machine.txn_row t)) = true).
        { apply (machine_sales_positive _ rs t (Hin t (or_introl eq_refl))).
          now apply machine_is_sales_iff. }
        cbn [Machine.gt_zero Machine.int64] in P. apply Z.ltb_lt in P.
        split; [lia|]. intros Z0. exfalso. lia.
      + split; [exact IH1|]. intros Z0 u [<-|Hu].
        * intros C. apply machine_is_sales_iff in C. congruence.
        * now apply IH2. }
  destruct (Hpos df (fun t H => H)) as [H0 H1]. fold s in H0, H1.
  assert (Hnone : (forall t, In t df -> Machine.Category t <> "Sales Income") ->
                  s = 0%Z).
  { intros Hno. unfold s. rewrite machine_none_selected; [reflexivity|].
    intros t Hin. apply not_true_iff_false. intros Hs.
    apply machine_is_sales_iff in Hs. exact (Hno t Hin Hs). }
  split; [exact H0|]. split; [split; [exact H1 | exact Hnone]|].
  split; [apply int64_income|].
  intros R. rewrite int64_income. fold s. rewrite (wrap_exact s R).
  split; [exact H0 | split; [exact H1 | exact Hnone]].
Qed.

(** ** The margin *)


(** ** The charts' series on an int64 column *)





Section Int64Grouping.
Context {K : Type} (eqb leb : K -> K -> bool).
Hypothesis eqb_eq : forall a b, eqb a b = true <-> a = b.
Hypothesis leb_total : forall a b, leb a b = true \/ leb b a = true.
Hypothesis leb_trans :
  forall a b c, leb a b = true -> leb b c = true -> leb a c = true.
Hypothesis leb_antisym : forall a b, leb a b = true -> leb b a = true -> a = b.




Lemma int64_groupby_sum_keys (keyed : list (K * Z)) :
  map fst (Machine.groupby_sum eqb leb keyed) = group_keys eqb leb (map fst keyed).
Proof.
  unfold Machine.groupby_sum. rewrite map_map. cbn [fst]. apply map_id.
Qed.

Lemma int64_groupby_sum_entry (keyed : list (K * Z)) (e : K * Z) :
  In e (Machine.groupby_sum eqb leb keyed) ->
  snd e = Machine.wrap (Machine.group_total eqb keyed (fst e)).
Proof.
  unfold Machine.groupby_sum. rewrite in_map_iff. intros [k [<- _]].
  cbn [fst snd]. apply int64_Series_sum.
Qed.

Lemma int64_groupby_sum_In (keyed : list (K * Z)) (k : K) (v : Z) :
  In (k, v) (Machine.groupby_sum eqb leb keyed) <->
  (exists e, In e keyed /\ fst e = k)
  /\ v = Machine.wrap (Machine.group_total eqb keyed k).
Proof.
  split.
  - intros Hin. split; [|exact (int64_groupby_sum_entry _ _ Hin)].
    assert (Hk : In k (map fst (Machine.groupby_sum eqb leb keyed)))
      by (apply in_map_iff; now exists (k, v)).
    rewrite int64_groupby_sum_keys in Hk.
    apply (group_keys_In eqb leb eqb_eq), in_map_iff in Hk.
    destruct Hk as [e [He Hin']]. now exists e.
  - intros [[e [Hin He]] ->]. unfold Machine.groupby_sum. apply in_map_iff.
    exists k. split; [now rewrite int64_Series_sum|].
    apply (group_keys_In eqb leb eqb_eq), in_map_iff. now exists e.
Qed.





End Int64Grouping.

Lemma by_category_group (df : list (Machine.Txn Machine.int64)) (label : string) :
  map snd (filter (fun e : string * Z => (fst e =? label)%string)
             (Machine.by_category df))
  = Machine.amounts Machine.int64
      (filter (fun t : Machine.Txn Machine.int64 =>
                 (Machine.Category t =? label)%string) df).
Proof.
  induction df as [|t df IH]; [reflexivity|].
  cbn [Machine.by_category map filter fst].
  fold (Machine.by_category df).
  destruct (Machine.Category t =? label)%string.
  - cbn [map snd Machine.amounts]. rewrite IH. reflexivity.
  - exact IH.
Qed.

Lemma Zsum_negative (l : list Z) :
  l <> [] -> (forall x, In x l -> (x < 0)%Z) -> (Machine.Zsum l < 0)%Z.
Proof.
  induction l as [|a l IH]; intros Hne H; [congruence|].
  rewrite Zsum_cons. pose proof (H a (or_introl eq_refl)) as Ha.
  destruct l as [|b l].
  - change (Machine.Zsum []) with 0%Z. lia.
  - assert (Machine.Zsum (b :: l) < 0)%Z.
    { apply IH; [discriminate|]. intros x Hx. apply H. now right. }
    lia.
Qed.

(** X9.  The heights of the bars on an int64 column.  The negative amounts
    of a bar's category have a negative exact sum g; the bar is [abs] of the
    int64 sum, which is -g, strictly positive, whenever g is above -2^63. *)
Theorem expense_chart_heights_int64 (df : list (Machine.Txn Machine.int64))
  (label : string) (v : Z) :
  In (label, v) (Machine.expense_df df) ->
  let g := Machine.Zsum
             (Machine.amounts Machine.int64
                (filter (fun t : Machine.Txn Machine.int64 =>
                           (Machine.Category t =? label)%string)
                   (filter Machine.is_negative df))) in
  (g < 0)%Z /\
  v = Machine.wrap (Z.abs (Machine.wrap g)) /\
  ((- 2 ^ 63 < g)%Z -> v = (- g)%Z /\ (0 < v)%Z).
Proof.
  intros Hin g. unfold Machine.expense_df in Hin. apply in_map_iff in Hin.
  destruct Hin as [[k x] [E Hin]]. cbn [fst snd] in E. inversion E; subst k v.
  apply (int64_groupby_sum_In String.eqb String.leb String.eqb_eq) in Hin.
  destruct Hin as [[e [He Hk]] ->].
  unfold Machine.group_total. rewrite by_category_group. fold g.
  assert (Hg : (g < 0)%Z).
  { unfold g. apply Zsum_negative.
    - unfold Machine.by_category in He. apply in_map_iff in He.
      destruct He as [t [<- Ht]]. cbn [fst] in Hk.
      assert (H : In t (filter (fun u : Machine.Txn Machine.int64 =>
                                  (Machine.Category u =? label)%string)
                          (filter Machine.is_negative df))).
      { apply filter_In. split; [exact Ht | now apply String.eqb_eq]. }
      intros N. unfold Machine.amounts in N. apply map_eq_nil in N.
      rewrite N in H. contradiction.
    - intros y Hy. unfold Machine.amounts in Hy. apply in_map_iff in Hy.
      destruct Hy as [t [<- Ht]]. apply filter_In in Ht. destruct Ht as [Ht _].
      apply filter_In in Ht. destruct Ht as [_ Ht].
      unfold Machine.is_negative in Ht. now apply Z.ltb_lt. }
  split; [exact Hg|]. split; [reflexivity|].
  intros Hmin. cbn [Machine.absolute Machine.int64].
  assert (R : Machine.in_int64 g) by (unfold Machine.in_int64; lia).
  rewrite (wrap_exact g R), wrap_exact by (unfold Machine.in_int64; lia).
  lia.
Qed.

Lemma expense_chart_heights_int64_witness :
  In ("Fuel Expense", 50%Z)
     (Machine.expense_df
        (Machine.apply_categorize Machine.int64 Machine.scenario_rows)) /\
  (50 = - Machine.Zsum
            (Machine.amounts Machine.int64
               (filter (fun t : Machine.Txn Machine.int64 =>
                          (Machine.Category t =? "Fuel Expense")%string)
                  (filter Machine.is_negative
                     (Machine.apply_categorize Machine.int64
                        Machine.scenario_rows)))))%Z.
Proof.
  assert (H : In ("Fuel Expense", 50%Z)
                (Machine.expense_df
                   (Machine.apply_categorize Machine.int64 Machine.scenario_rows)))
    by (left; reflexivity).
  pose proof (expense_chart_heights_int64 _ _ _ H) as P. cbv zeta in P.
  destruct P as [_ [_ P]].
  refine (conj H (proj1 (P _))). vm_compute. reflexivity.
Defined.





